(** * Registry cleanup client: a shallow embedding of [cleanup_registry.py]

    The development follows the class [RegistryCleanup] of
    [scripts/cleanup_registry.py]: the low-level request helper, the two
    listing operations, digest resolution, manifest deletion, and the two
    cleanup drivers.  Network, console and keyboard are explicit state; an
    exception is a result of the computation. *)

From Stdlib Require Import ZArith String Ascii List Bool Lia.
From stdpp Require Import base option list strings gmap.

Local Open Scope Z_scope.
Local Open Scope string_scope.
Local Open Scope list_scope.

(** ** Python strings *)

Module Py.

(** A character is a code point below 256 (the type [ascii]); text is
    modelled within that range.  [str.lower] there: the letters A-Z and
    the Latin-1 capitals (192-222 but the multiplication sign, 215) move
    up by 32. *)
Definition lower_char (c : ascii) : ascii :=
  let n := nat_of_ascii c in
  if ((65 <=? n)%nat && (n <=? 90)%nat)%bool then ascii_of_nat (n + 32)
  else if ((192 <=? n)%nat && (n <=? 222)%nat && negb (n =? 215)%nat)%bool
       then ascii_of_nat (n + 32)
  else c.

Fixpoint lower (s : string) : string :=
  match s with
  | EmptyString => EmptyString
  | String c s' => String (lower_char c) (lower s')
  end.

(** [s.replace(old, new)] for a one-character [old]: every occurrence,
    left to right. *)
Fixpoint replace (old : ascii) (new : string) (s : string) : string :=
  match s with
  | EmptyString => EmptyString
  | String c s' =>
      if Ascii.eqb c old then new +:+ replace old new s'
      else String c (replace old new s')
  end.

(** Truth value of a string: non-empty. *)
Definition truthy (s : string) : bool :=
  match s with EmptyString => false | String _ _ => true end.

Definition newline : ascii := ascii_of_nat 10.

End Py.

(** ** The fragment of Python's [re] that the pattern translation reaches *)

Module Re.

(** A compiled pattern is a sequence of items.  The translation of a
    shell pattern only ever writes [.] and [.*]; [^] and [$] are written
    around it by the caller. *)
Inductive item : Type :=
  | Bol                 (* ^ : start of the string *)
  | Eol                 (* $ : end of the string, or just before a final newline *)
  | Lit (c : ascii)     (* an ordinary character *)
  | Any                 (* . : any character but a newline *)
  | AnyStar.            (* .* : any run of characters without a newline *)

(** Characters with a meaning of their own in [re], besides [.], [^], [$]
    and [*].  A source that contains one is outside the fragment. *)
Definition special (c : ascii) : bool :=
  existsb (Ascii.eqb c)
    ["+"; "?"; "{"; "}"; "["; "]"; "("; ")"; "|"; "\"]%char.

(** [re.compile] on the fragment.  [None]: the source is outside the
    fragment (a special character, or a [*] that does not follow a [.]
    directly, or follows [.*]). *)
Fixpoint compile (src : string) : option (list item) :=
  match src with
  | EmptyString => Some []
  | String c rest =>
      if Ascii.eqb c "^" then cons Bol <$> compile rest
      else if Ascii.eqb c "$" then cons Eol <$> compile rest
      else if Ascii.eqb c "*" then None
      else if special c then None
      else if Ascii.eqb c "." then
        match rest with
        | String c' rest' =>
            if Ascii.eqb c' "*" then
              match rest' with
              | String c'' _ =>
                  if Ascii.eqb c'' "*" then None else cons AnyStar <$> compile rest'
              | EmptyString => Some [AnyStar]
              end
            else cons Any <$> compile rest
        | EmptyString => Some [Any]
        end
      else cons (Lit c) <$> compile rest
  end.

Definition at_end (s : string) : bool :=
  match s with
  | EmptyString => true
  | String c EmptyString => Ascii.eqb c Py.newline
  | _ => false
  end.

(** Backtracking search from the current position.  [start] tells whether
    the position is the start of the string.  [whole] selects
    [fullmatch] (the items must use up the string) over [match]. *)
Fixpoint run (whole : bool) (items : list item) : bool -> string -> bool :=
  match items with
  | [] => fun _ s => if whole then negb (Py.truthy s) else true
  | Bol :: r => fun start s => start && run whole r start s
  | Eol :: r => fun start s => at_end s && run whole r start s
  | Lit c :: r => fun _ s =>
      match s with
      | String c' s' => Ascii.eqb c' c && run whole r false s'
      | EmptyString => false
      end
  | Any :: r => fun _ s =>
      match s with
      | String c' s' => negb (Ascii.eqb c' Py.newline) && run whole r false s'
      | EmptyString => false
      end
  | AnyStar :: r =>
      fix star (start : bool) (s : string) : bool :=
        run whole r start s
        || match s with
           | String c' s' => negb (Ascii.eqb c' Py.newline) && star false s'
           | EmptyString => false
           end
  end.

(** [regex.match(s) is not None] *)
Definition matches (items : list item) (s : string) : bool :=
  run false items true s.

(** [regex.fullmatch(s) is not None] *)
Definition fullmatch (items : list item) (s : string) : bool :=
  run true items true s.

End Re.

(** ** The registry seen from the client *)

Inductive Method : Type := GET | HEAD | DELETE.

(** What [session.request] is given: the method, the full URL and, for the
    manifest probe, the [Accept] header. *)
Record Request : Type := mkRequest {
  method : Method;
  url : string;
  accept : option string
}.

(** A decoded JSON body.  The two documents the client reads are objects
    whose fields, as the v2 API sends them, hold [null] or an array of
    strings; every other document is [JsonOther]. *)
Inductive Json : Type :=
  | JsonObject (fields : gmap string (option (list string)))
  | JsonOther.

(** A [requests.Response]: [headers] is indexed by lower-case header name
    (the library's case-insensitive dictionary), [body] is [None] when the
    body does not decode as JSON. *)
Record Response : Type := mkResponse {
  status_code : Z;
  headers : gmap string string;
  body : option Json
}.

(** What [session.request] itself may raise: a
    [requests.exceptions.RequestException] (connection refused, timeout,
    ...) or some other [Exception]. *)
Inductive TransportError : Type := RequestError | OtherError.

Inductive Outcome : Type :=
  | Answer (r : Response)
  | Failure (e : TransportError).

(** The exceptions that travel through the client, all of them instances
    of [Exception].  An interrupt from the keyboard can arrive at any
    moment and is not part of a run here. *)
Inductive exn : Type :=
  | HTTPError (response : Response)   (* from [raise_for_status] *)
  | Transport (e : TransportError)
  | JSONDecodeError                   (* [response.json()] on a non-JSON body *)
  | AttributeError                    (* [.get] on a document that is no object *)
  | TypeError                         (* [len(None)] *)
  | EOFError                          (* [input] at end of input *)
  | ReError.                          (* [re.error] from [re.compile] *)

Inductive result (A : Type) : Type :=
  | Ok (a : A)
  | Raise (e : exn).
Arguments Ok {A} a.
Arguments Raise {A} e.

(** One console line per [print] of the source, with the values it
    interpolates. *)
Inductive message : Type :=
  | MsgRequestFailed (m : Method) (u : string) (e : exn)
  | MsgListingRepositories
  | MsgFoundRepositories (n : nat)
  | MsgListRepositoriesFailed (e : exn)
  | MsgRepositoryHasTags (repository : string) (n : nat)
  | MsgRepositoryNoTags (repository : string)
  | MsgRepositoryNotFound (repository : string)
  | MsgListTagsFailed (repository : string) (e : exn)
  | MsgNoDigestFound (repository tag : string)
  | MsgDryRunWouldDelete (digest : string)
  | MsgDeletedManifest (digest : string)
  | MsgUnexpectedResponse (status : Z) (digest : string)
  | MsgDeleteFailed (digest : string) (e : exn)
  | MsgCleaningRepository (repository : string)
  | MsgProcessingTag (tag : string)
  | MsgRepositorySummary (repository : string) (deleted failed : Z)
  | MsgFindingPattern (pattern : string)
  | MsgNoRepositoriesFound
  | MsgNoPatternMatch (pattern : string)
  | MsgFoundMatching (n : nat)
  | MsgMatchingRepository (repository : string)
  | MsgDeleteWarning (n : nat)
  | MsgConfirmPrompt
  | MsgOperationCancelled
  | MsgTotalSummary
  | MsgRepositoriesProcessed (n : nat)
  | MsgImagesDeleted (n : Z)
  | MsgFailedDeletions (n : Z).

(** The state a run threads: the registry (of any type [W]), the lines the
    keyboard will supply, the console output so far, and the history of
    exchanges with the registry. *)
Record State (W : Type) : Type := mkState {
  world : W;
  stdin : list string;
  stdout : list message;
  trace : list (Request * Outcome)
}.
Arguments mkState {W} _ _ _ _.
Arguments world {W} _.
Arguments stdin {W} _.
Arguments stdout {W} _.
Arguments trace {W} _.

(** The client object: the fields of [self] the operations read. *)
Record RegistryCleanup : Type := mkRegistryCleanup {
  registry_url : string;
  dry_run : bool
}.

(** ** Computations: state passing with exceptions *)

Definition M (W A : Type) : Type := State W -> State W * result A.

Definition ret {W A} (a : A) : M W A := fun st => (st, Ok a).

Definition raise {W A} (e : exn) : M W A := fun st => (st, Raise e).

(** A result that is already there: a value, or an exception to raise. *)
Definition lift {W A} (r : result A) : M W A := fun st => (st, r).

Definition bind {W A B} (m : M W A) (k : A -> M W B) : M W B :=
  fun st =>
    match m st with
    | (st', Ok a) => k a st'
    | (st', Raise e) => (st', Raise e)
    end.

(** [try: m  except ... as e: h e] ; an exception raised by the handler
    itself leaves the statement. *)
Definition try_except {W A} (m : M W A) (h : exn -> M W A) : M W A :=
  fun st =>
    match m st with
    | (st', Ok a) => (st', Ok a)
    | (st', Raise e) => h e st'
    end.

Declare Scope py_scope.
Delimit Scope py_scope with py.
Notation "x <- m ; k" := (bind m (fun x => k))
  (at level 100, m at next level, k at level 200, right associativity) : py_scope.
Notation "m ;; k" := (bind m (fun _ => k))
  (at level 100, k at level 200, right associativity) : py_scope.

(** [print]: the line is added to the console output; writing to the
    console does not fail. *)
Definition print {W} (m : message) : M W unit :=
  fun st => (mkState (world st) (stdin st) (stdout st ++ [m]) (trace st), Ok tt).

(** [input(prompt)]: the prompt goes to the console, the next line comes
    from the keyboard, [EOFError] when there is none. *)
Definition input {W} (prompt : message) : M W string :=
  fun st =>
    let st' := mkState (world st) (stdin st) (stdout st ++ [prompt]) (trace st) in
    match stdin st with
    | line :: rest => (mkState (world st) rest (stdout st') (trace st), Ok line)
    | [] => (st', Raise EOFError)
    end.

(** [requests]' [HTTPError] and the transport's [RequestError] are
    [RequestException]s. *)
Definition is_RequestException (e : exn) : bool :=
  match e with
  | HTTPError _ | Transport RequestError | JSONDecodeError => true
  | _ => false
  end.

(** [response.raise_for_status()] raises for the statuses 400 to 599. *)
Definition is_error_status (r : Response) : bool :=
  ((400 <=? status_code r) && (status_code r <? 600))%Z.

Definition raise_for_status {W} (r : Response) : M W unit :=
  if is_error_status r then raise (HTTPError r) else ret tt.

(** [response.json()] *)
Definition json {W} (r : Response) : M W Json :=
  match body r with
  | Some j => ret j
  | None => raise JSONDecodeError
  end.

(** [data.get(key, [])]: the field, the empty list when the field is
    missing; [None] is JSON's [null]. *)
Definition get {W} (data : Json) (key : string) : M W (option (list string)) :=
  match data with
  | JsonObject fields =>
      ret (match fields !! key with Some v => v | None => Some [] end)
  | JsonOther => raise AttributeError
  end.

(** [len(x)] *)
Definition len {W} (x : option (list string)) : M W nat :=
  match x with
  | Some l => ret (length l)
  | None => raise TypeError
  end.

(** [response.headers.get(name)] *)
Definition headers_get (r : Response) (name : string) : option string :=
  headers r !! Py.lower name.

Definition manifest_types : list string :=
  [ "application/vnd.docker.distribution.manifest.v2+json";
    "application/vnd.docker.distribution.manifest.v1+json";
    "application/vnd.oci.image.manifest.v1+json" ].

(** ** The operations of [RegistryCleanup] *)

Section Client.

Context {W : Type}.

(** [self.session.request]: the registry answers, or the transport
    fails; either way the registry may change. *)
Variable session_request : W -> Request -> W * Outcome.

(** [re.compile] on a source outside the fragment of [Re.compile]:
    [None] when it raises [re.error], otherwise what [regex.match]
    accepts. *)
Variable re_other : string -> option (string -> bool).

Local Open Scope py_scope.

(** The call of [self.session.request]; the exchange is recorded in the
    history. *)
Definition request (req : Request) : M W Response :=
  fun st =>
    let (w', o) := session_request (world st) req in
    let st' := mkState w' (stdin st) (stdout st) (trace st ++ [(req, o)]) in
    match o with
    | Answer r => (st', Ok r)
    | Failure e => (st', Raise (Transport e))
    end.

Definition _make_request (self : RegistryCleanup) (method : Method)
    (path : string) (accept : option string) : M W Response :=
  let url := registry_url self +:+ "/v2" +:+ path in
  try_except
    (response <- request (mkRequest method url accept);
     raise_for_status response;;
     ret response)
    (fun e =>
       if is_RequestException e
       then print (MsgRequestFailed method url e);; raise e
       else raise e).

Definition list_repositories (self : RegistryCleanup) : M W (list string) :=
  print MsgListingRepositories;;
  try_except
    (response <- _make_request self GET "/_catalog" None;
     data <- json response;
     repositories <- get data "repositories";
     n <- len repositories;
     print (MsgFoundRepositories n);;
     ret (default [] repositories))
    (fun e =>
       print (MsgListRepositoriesFailed e);;
       ret []).

Definition list_tags (self : RegistryCleanup) (repository : string)
    : M W (list string) :=
  try_except
    (response <- _make_request self GET ("/" +:+ repository +:+ "/tags/list") None;
     data <- json response;
     tags <- get data "tags";
     match tags with
     | Some (t :: ts) =>
         print (MsgRepositoryHasTags repository (length (t :: ts)));;
         ret (t :: ts)
     | _ =>
         print (MsgRepositoryNoTags repository);;
         ret []
     end)
    (fun e =>
       match e with
       | HTTPError response =>
           if (status_code response =? 404)%Z
           then print (MsgRepositoryNotFound repository);; ret []
           else raise e
       | _ =>
           print (MsgListTagsFailed repository e);;
           ret []
       end).

(** The body of the loop of [get_manifest_digest] for one media type:
    [Some digest] is the [return digest], [None] goes on to the next
    type ([continue], or the end of the body), an exception leaves the
    function. *)
Definition probe (self : RegistryCleanup) (repository tag manifest_type : string)
    : M W (option string) :=
  try_except
    (response <- _make_request self HEAD
                   ("/" +:+ repository +:+ "/manifests/" +:+ tag)
                   (Some manifest_type);
     match headers_get response "Docker-Content-Digest" with
     | Some digest => if Py.truthy digest then ret (Some digest) else ret None
     | None => ret None
     end)
    (fun e =>
       match e with
       | HTTPError response =>
           if (status_code response =? 404)%Z then ret None else raise e
       | _ => ret None
       end).

Fixpoint probe_each (self : RegistryCleanup) (repository tag : string)
    (types : list string) : M W (option string) :=
  match types with
  | manifest_type :: rest =>
      found <- probe self repository tag manifest_type;
      match found with
      | Some digest => ret (Some digest)
      | None => probe_each self repository tag rest
      end
  | [] =>
      print (MsgNoDigestFound repository tag);;
      ret None
  end.

Definition get_manifest_digest (self : RegistryCleanup) (repository tag : string)
    : M W (option string) :=
  probe_each self repository tag manifest_types.

Definition delete_manifest (self : RegistryCleanup) (repository digest : string)
    : M W bool :=
  if dry_run self then
    print (MsgDryRunWouldDelete digest);;
    ret true
  else
    try_except
      (response <- _make_request self DELETE
                     ("/" +:+ repository +:+ "/manifests/" +:+ digest) None;
       if ((status_code response =? 202) || (status_code response =? 204))%Z
       then print (MsgDeletedManifest digest);; ret true
       else print (MsgUnexpectedResponse (status_code response) digest);; ret false)
      (fun e =>
         print (MsgDeleteFailed digest e);;
         ret false).

(** The loop over the tags, with the two counters. *)
Fixpoint cleanup_tags (self : RegistryCleanup) (repository : string)
    (tags : list string) (deleted_count failed_count : Z) : M W (Z * Z) :=
  match tags with
  | [] => ret (deleted_count, failed_count)
  | tag :: rest =>
      print (MsgProcessingTag tag);;
      digest <- get_manifest_digest self repository tag;
      match digest with
      | Some d =>
          if Py.truthy d then
            deleted <- delete_manifest self repository d;
            if (deleted : bool)
            then cleanup_tags self repository rest (deleted_count + 1) failed_count
            else cleanup_tags self repository rest deleted_count (failed_count + 1)
          else cleanup_tags self repository rest deleted_count (failed_count + 1)
      | None => cleanup_tags self repository rest deleted_count (failed_count + 1)
      end
  end.

Definition cleanup_repository (self : RegistryCleanup) (repository : string)
    : M W (Z * Z) :=
  print (MsgCleaningRepository repository);;
  tags <- list_tags self repository;
  match tags with
  | [] => ret (0, 0)%Z
  | _ =>
      counts <- cleanup_tags self repository tags 0 0;
      print (MsgRepositorySummary repository (fst counts) (snd counts));;
      ret counts
  end.

(** [re.compile(f'^{regex_pattern}$')], then [regex.match]. *)
Definition re_compile (src : string) : result (string -> bool) :=
  match Re.compile src with
  | Some items => Ok (Re.matches items)
  | None =>
      match re_other src with
      | Some accepts => Ok accepts
      | None => Raise ReError
      end
  end.

(** The loop over the matching repositories, with the result mapping and
    the two totals. *)
Fixpoint cleanup_each (self : RegistryCleanup) (repos : list string)
    (results : gmap string (Z * Z)) (total_deleted total_failed : Z)
    : M W (gmap string (Z * Z) * Z * Z) :=
  match repos with
  | [] => ret (results, total_deleted, total_failed)
  | repo :: rest =>
      counts <- cleanup_repository self repo;
      cleanup_each self rest (<[repo := counts]> results)
        (total_deleted + fst counts) (total_failed + snd counts)
  end.

Fixpoint print_each (repos : list string) : M W unit :=
  match repos with
  | [] => ret tt
  | repo :: rest => print (MsgMatchingRepository repo);; print_each rest
  end.

(** The part of [cleanup_repositories_by_pattern] after the
    confirmation. *)
Definition cleanup_matching (self : RegistryCleanup) (matching_repos : list string)
    : M W (gmap string (Z * Z)) :=
  totals <- cleanup_each self matching_repos ∅ 0 0;
  let '(results, total_deleted, total_failed) := totals in
  print MsgTotalSummary;;
  print (MsgRepositoriesProcessed (length matching_repos));;
  print (MsgImagesDeleted total_deleted);;
  print (MsgFailedDeletions total_failed);;
  ret results.

(** [pattern.replace('*', '.*').replace('?', '.')] *)
Definition regex_pattern (pattern : string) : string :=
  Py.replace "?" "." (Py.replace "*" ".*" pattern).

(** [f'^{regex_pattern}$'] *)
Definition regex_source (pattern : string) : string :=
  "^" +:+ regex_pattern pattern +:+ "$".

Definition cleanup_repositories_by_pattern (self : RegistryCleanup)
    (pattern : string) : M W (gmap string (Z * Z)) :=
  print (MsgFindingPattern pattern);;
  repositories <- list_repositories self;
  match repositories with
  | [] =>
      print MsgNoRepositoriesFound;;
      ret ∅
  | _ =>
      regex <- lift (re_compile (regex_source pattern));
      let matching_repos := List.filter regex repositories in
      match matching_repos with
      | [] =>
          print (MsgNoPatternMatch pattern);;
          ret ∅
      | _ =>
          print (MsgFoundMatching (length matching_repos));;
          print_each matching_repos;;
          if negb (dry_run self) then
            print (MsgDeleteWarning (length matching_repos));;
            confirm <- input MsgConfirmPrompt;
            if negb (String.eqb (Py.lower confirm) "yes") then
              print MsgOperationCancelled;;
              ret ∅
            else cleanup_matching self matching_repos
          else cleanup_matching self matching_repos
      end
  end.

End Client.

(** The state after one exchange [req]/[o] that left the registry in [w']
    and wrote [msgs]. *)
Definition after {W} (st : State W) (req : Request) (w' : W) (o : Outcome)
    (msgs : list message) : State W :=
  mkState w' (stdin st) (stdout st ++ msgs) (trace st ++ [(req, o)]).

(** The state after writing [msgs]. *)
Definition wrote {W} (st : State W) (msgs : list message) : State W :=
  mkState (world st) (stdin st) (stdout st ++ msgs) (trace st).

(** ** Reading the history of exchanges *)

Definition is_delete (x : Request * Outcome) : bool :=
  match method (fst x) with DELETE => true | _ => false end.

Definition is_head (x : Request * Outcome) : bool :=
  match method (fst x) with HEAD => true | _ => false end.

(** Number of DELETE requests sent so far. *)
Definition deletes (t : list (Request * Outcome)) : nat :=
  length (List.filter is_delete t).

(** What one manifest probe makes of the registry's answer. *)
Inductive verdict : Type :=
  | Found (digest : string)   (* a usable answer with a non-empty digest header *)
  | Next                      (* nothing here: try the next media type *)
  | Abort (e : exn).          (* the probe raises *)

Definition classify (o : Outcome) : verdict :=
  match o with
  | Failure _ => Next
  | Answer r =>
      if is_error_status r then
        if (status_code r =? 404)%Z then Next else Abort (HTTPError r)
      else
        match headers_get r "Docker-Content-Digest" with
        | Some digest => if Py.truthy digest then Found digest else Next
        | None => Next
        end
  end.

Definition is_resolution (x : Request * Outcome) : bool :=
  is_head x && match classify (snd x) with Found _ => true | _ => false end.

(** Number of manifest probes so far that yielded a digest: one per call
    of [get_manifest_digest] that returned one (lemma
    [get_manifest_digest_counts]). *)
Definition resolutions (t : list (Request * Outcome)) : Z :=
  Z.of_nat (length (List.filter is_resolution t)).

(** The console lines [_make_request] writes for an outcome. *)
Definition request_log (m : Method) (u : string) (o : Outcome) : list message :=
  match o with
  | Answer r =>
      if is_error_status r then [MsgRequestFailed m u (HTTPError r)] else []
  | Failure RequestError => [MsgRequestFailed m u (Transport RequestError)]
  | Failure OtherError => []
  end.

(** The three probes of [get_manifest_digest], in order. *)
Definition manifest_probes (self : RegistryCleanup) (repository tag : string)
    : list Request :=
  let u := registry_url self +:+ "/v2" +:+ "/" +:+ repository +:+ "/manifests/" +:+ tag in
  [ mkRequest HEAD u (Some "application/vnd.docker.distribution.manifest.v2+json");
    mkRequest HEAD u (Some "application/vnd.docker.distribution.manifest.v1+json");
    mkRequest HEAD u (Some "application/vnd.oci.image.manifest.v1+json") ].

(** ** Digest resolution, answer by answer *)

(** The registry's answers to a list of requests sent one after the
    other. *)
Fixpoint exchange_all {W} (session_request : W -> Request -> W * Outcome)
    (w : W) (reqs : list Request) : list (Request * Outcome) :=
  match reqs with
  | [] => []
  | req :: rest =>
      let (w', o) := session_request w req in
      (req, o) :: exchange_all session_request w' rest
  end.

(** The first verdict that is not [Next], [Next] when there is none. *)
Fixpoint first_verdict (xs : list (Request * Outcome)) : verdict :=
  match xs with
  | [] => Next
  | x :: rest =>
      match classify (snd x) with
      | Next => first_verdict rest
      | v => v
      end
  end.

(** The exchanges up to and including the first whose verdict is not
    [Next]. *)
Fixpoint until_verdict (xs : list (Request * Outcome)) : list (Request * Outcome) :=
  match xs with
  | [] => []
  | x :: rest =>
      match classify (snd x) with
      | Next => x :: until_verdict rest
      | _ => [x]
      end
  end.

Definition verdict_result (v : verdict) : result (option string) :=
  match v with
  | Found digest => Ok (Some digest)
  | Next => Ok None
  | Abort e => Raise e
  end.

(** The probes for a list of media types. *)
Definition probes_for (self : RegistryCleanup) (repository tag : string)
    (types : list string) : list Request :=
  map (fun manifest_type =>
         mkRequest HEAD
           (registry_url self +:+ "/v2" +:+ "/" +:+ repository
              +:+ "/manifests/" +:+ tag)
           (Some manifest_type)) types.

(** ** The two listings and the deletion, answer by answer *)

(** The strings a usable answer lists under [field]: none when the body is
    no JSON object, the field is missing, or it holds [null]. *)
Definition listed (field : string) (r : Response) : list string :=
  match body r with
  | Some (JsonObject fields) =>
      match fields !! field with
      | Some (Some values) => values
      | _ => []
      end
  | _ => []
  end.

(** What [list_tags] makes of the registry's answer. *)
Definition tags_result (o : Outcome) : result (list string) :=
  match o with
  | Failure _ => Ok []
  | Answer r =>
      if is_error_status r then
        if (status_code r =? 404)%Z then Ok [] else Raise (HTTPError r)
      else Ok (listed "tags" r)
  end.

(** What [list_repositories] makes of the registry's answer. *)
Definition repositories_result (o : Outcome) : list string :=
  match o with
  | Failure _ => []
  | Answer r => if is_error_status r then [] else listed "repositories" r
  end.

Definition tags_request (self : RegistryCleanup) (repository : string) : Request :=
  mkRequest GET (registry_url self +:+ "/v2" +:+ "/" +:+ repository +:+ "/tags/list") None.

Definition catalog_request (self : RegistryCleanup) : Request :=
  mkRequest GET (registry_url self +:+ "/v2" +:+ "/_catalog") None.

Definition delete_request (self : RegistryCleanup) (repository digest : string)
    : Request :=
  mkRequest DELETE
    (registry_url self +:+ "/v2" +:+ "/" +:+ repository +:+ "/manifests/" +:+ digest)
    None.

(** What a real [delete_manifest] makes of the registry's answer. *)
Definition delete_result (o : Outcome) : bool :=
  match o with
  | Answer r => ((status_code r =? 202) || (status_code r =? 204))%Z
  | Failure _ => false
  end.

(** ** The pattern cleanup, run by run *)

Section Sequence.

Context {W : Type}.
Variable session_request : W -> Request -> W * Outcome.

Local Open Scope py_scope.

(** [cleanup_repository] for each repository, in the order of the list;
    the counts it returned, in that order. *)
Fixpoint cleanup_all (self : RegistryCleanup) (repos : list string)
    : M W (list (Z * Z)) :=
  match repos with
  | [] => ret []
  | repo :: rest =>
      counts <- cleanup_repository session_request self repo;
      others <- cleanup_all self rest;
      ret (counts :: others)
  end.

End Sequence.

(** The mapping after storing the entries one after the other. *)
Definition record (results : gmap string (Z * Z)) (entries : list (string * (Z * Z)))
    : gmap string (Z * Z) :=
  foldl (fun m e => <[fst e := snd e]> m) results entries.

Definition total (l : list Z) : Z := foldr Z.add 0%Z l.

(** The state in which the cleanup of the matching repositories starts:
    after the announcement and, outside dry-run mode, after the line
    [confirm] was read from the keyboard. *)
Definition announced {W} (st : State W) (matching : list string) : State W :=
  wrote st (MsgFoundMatching (length matching) :: map MsgMatchingRepository matching).

Definition confirmed {W} (st : State W) (matching : list string) (rest : list string)
    : State W :=
  mkState (world st) rest
    (stdout (announced st matching)
       ++ [MsgDeleteWarning (length matching); MsgConfirmPrompt])
    (trace st).

(** The closing report of the pattern cleanup. *)
Definition report (processed : nat) (deleted failed : Z) : list message :=
  [ MsgTotalSummary; MsgRepositoriesProcessed processed;
    MsgImagesDeleted deleted; MsgFailedDeletions failed ].

(** ** The specification's reading of a shell pattern *)

(** From the specification's words: [*] stands for any sequence of
    characters, [?] for any single character, every other character for
    itself, and the pattern has to cover the whole name. *)
Fixpoint spec_glob_match (pattern : string) : string -> bool :=
  match pattern with
  | EmptyString => fun name => negb (Py.truthy name)
  | String c rest =>
      if Ascii.eqb c "*" then
        fix star (name : string) : bool :=
          spec_glob_match rest name
          || match name with
             | String _ name' => star name'
             | EmptyString => false
             end
      else fun name =>
        match name with
        | String c' name' =>
            (Ascii.eqb c "?" || Ascii.eqb c' c) && spec_glob_match rest name'
        | EmptyString => false
        end
  end.

(** The translation as the specification words it: [*] becomes [.*], [?]
    becomes [.], every other character is copied. *)
Fixpoint spec_translate (pattern : string) : string :=
  match pattern with
  | EmptyString => EmptyString
  | String c rest =>
      (if Ascii.eqb c "*" then ".*"
       else if Ascii.eqb c "?" then "."
       else String c EmptyString) +:+ spec_translate rest
  end.

Definition starts_with_star (s : string) : bool :=
  match s with
  | String c _ => Ascii.eqb c "*"
  | EmptyString => false
  end.

(** The characters of a pattern the translation handles within the
    fragment: the two wildcards, the dot and every character without a
    meaning in [re]. *)
Definition glob_char (c : ascii) : bool :=
  negb (existsb (Ascii.eqb c)
          ["+"; "{"; "}"; "["; "]"; "("; ")"; "|"; "\"; "^"; "$"]%char).

Fixpoint glob_pattern (pattern : string) : bool :=
  match pattern with
  | EmptyString => true
  | String c rest => glob_char c && glob_pattern rest
  end.

(** The items a pattern of such characters compiles to. *)
Fixpoint glob_items (pattern : string) : list Re.item :=
  match pattern with
  | EmptyString => []
  | String c rest =>
      (if Ascii.eqb c "*" then Re.AnyStar
       else if Ascii.eqb c "?" then Re.Any
       else if Ascii.eqb c "." then Re.Any
       else Re.Lit c) :: glob_items rest
  end.

(** [name] without its final newline, when it has one. *)
Fixpoint chomp (name : string) : option string :=
  match name with
  | EmptyString => None
  | String c EmptyString => if Ascii.eqb c Py.newline then Some EmptyString else None
  | String c rest => String c <$> chomp rest
  end.

(** A full match of [name], or of [name] without its final newline. *)
Definition fullmatch_or_chomped (items : list Re.item) (start : bool) (name : string)
    : bool :=
  Re.run true items start name
  || match chomp name with
     | Some name' => Re.run true items start name'
     | None => false
     end.

(** ** What a computation asks of the registry and of the keyboard *)

(** Every exchange the computation adds to the history is a request with
    the property [P]. *)
Definition sends {W A} (P : Request -> Prop) (m : M W A) : Prop :=
  forall st, exists xs,
    trace (fst (m st)) = trace st ++ xs
    /\ Forall (fun x => P (fst x)) xs.

(** The computation reads nothing from the keyboard. *)
Definition keeps_keyboard {W A} (m : M W A) : Prop :=
  forall st, stdin (fst (m st)) = stdin st.

(** The requests about one repository: its tag list, the manifest probes
    of one of its tags, the deletion of one of its manifests. *)
Definition concerns (self : RegistryCleanup) (repository : string) (req : Request)
    : Prop :=
  req = tags_request self repository
  \/ (exists tag, In req (manifest_probes self repository tag))
  \/ (exists digest, req = delete_request self repository digest).

Definition is_get (x : Request * Outcome) : Prop := method (fst x) = GET.



(** A pattern without any wildcard and without any character that has a
    meaning in [re]. *)
Fixpoint literal_pattern (pattern : string) : bool :=
  match pattern with
  | EmptyString => true
  | String c rest =>
      glob_char c
      && negb (Ascii.eqb c "*") && negb (Ascii.eqb c "?") && negb (Ascii.eqb c ".")
      && literal_pattern rest
  end.

(** A pattern of the two wildcards and of characters without a meaning in
    [re]: no dot either. *)
Fixpoint wildcard_pattern (pattern : string) : bool :=
  match pattern with
  | EmptyString => true
  | String c rest =>
      glob_char c && negb (Ascii.eqb c ".") && wildcard_pattern rest
  end.

Fixpoint no_newline (name : string) : bool :=
  match name with
  | EmptyString => true
  | String c rest => negb (Ascii.eqb c Py.newline) && no_newline rest
  end.

(** The spellings of "yes". *)
Definition affirmative : list string :=
  ["yes"; "yeS"; "yEs"; "yES"; "Yes"; "YeS"; "YEs"; "YES"].

(** ** The constructor, the registry information and the command line *)

(** [s.rstrip(c)] for a one-character [c]: every [c] at the end goes. *)
Fixpoint rstrip (c : ascii) (s : string) : string :=
  match s with
  | EmptyString => EmptyString
  | String a rest =>
      match rstrip c rest with
      | EmptyString => if Ascii.eqb a c then EmptyString else String a EmptyString
      | kept => String a kept
      end
  end.

(** [n] times the character [c]. *)
Fixpoint copies (n : nat) (c : ascii) : string :=
  match n with
  | O => EmptyString
  | S n' => String c (copies n' c)
  end.

(** Truth value of an optional string: given and non-empty. *)
Definition given (s : option string) : bool :=
  match s with
  | Some text => Py.truthy text
  | None => false
  end.

(** The [requests.Session] of the client: the credentials attached to
    every request ([None] by default) and the TLS verification ([True] by
    default). *)
Record Session : Type := mkSession {
  auth : option (string * string);
  verify : bool
}.

(** The object [__init__] builds: the fields the operations read, the
    [verify_ssl] field and the session. *)
Record Client : Type := mkClient {
  core : RegistryCleanup;
  verify_ssl : bool;
  session : Session
}.

(** The console lines of [__init__], [show_registry_info] and [main]. *)
Inductive cli_message : Type :=
  | MsgUsingAuthentication (username : string)
  | MsgSslVerificationDisabled
  | MsgRegistryUrl (u : string)
  | MsgDryRunMode (enabled : bool)
  | MsgRegistryInformation
  | MsgInformationUrl (u : string)
  | MsgRegistryAccessible
  | MsgRegistryNotAccessible (e : exn)
  | MsgRepositoriesHeader (n : nat)
  | MsgRepositoryTagCount (repository : string) (n : nat)
  | MsgMoreRepositories (n : nat)
  | MsgMustSpecify
  | MsgHelp
  | MsgCannotSpecifyBoth
  | MsgInitializationFailed (e : exn)
  | MsgSummary (deleted failed : Z)
  | MsgGarbageCollectionReminder
  | MsgGarbageCollectionCommand
  | MsgOperationFailed (e : exn).

(** A line on the screen: one of an operation of the client, or one of the
    functions around them. *)
Inductive line : Type :=
  | Said (m : message)
  | Told (m : cli_message).

(** The state of a whole run of the program. *)
Record Console (W : Type) : Type := mkConsole {
  registry : W;
  keyboard : list string;
  screen : list line;
  history : list (Request * Outcome)
}.
Arguments mkConsole {W} _ _ _ _.
Arguments registry {W} _.
Arguments keyboard {W} _.
Arguments screen {W} _.
Arguments history {W} _.

(** The parsed command line ([argparse]'s namespace). *)
Record Args : Type := mkArgs {
  arg_registry : string;
  arg_pattern : option string;
  arg_repository : option string;
  arg_username : option string;
  arg_password : option string;
  arg_dry_run : bool;
  arg_info : bool;
  arg_verify_ssl : bool
}.

Definition Cli (W A : Type) : Type := Console W -> Console W * result A.

Definition cret {W A} (a : A) : Cli W A := fun c => (c, Ok a).

Definition cbind {W A B} (m : Cli W A) (k : A -> Cli W B) : Cli W B :=
  fun c =>
    match m c with
    | (c', Ok a) => k a c'
    | (c', Raise e) => (c', Raise e)
    end.

Definition ctry {W A} (m : Cli W A) (h : exn -> Cli W A) : Cli W A :=
  fun c =>
    match m c with
    | (c', Ok a) => (c', Ok a)
    | (c', Raise e) => h e c'
    end.

Definition tell {W} (m : cli_message) : Cli W unit :=
  fun c => (mkConsole (registry c) (keyboard c) (screen c ++ [Told m]) (history c),
            Ok tt).

(** The state an operation of the client starts from. *)
Definition load {W} (c : Console W) : State W :=
  mkState (registry c) (keyboard c) [] (history c).

(** An operation of the client within the program: its console lines go
    to the screen in their order. *)
Definition run_core {W A} (m : M W A) : Cli W A :=
  fun c =>
    let (st', r) := m (load c) in
    (mkConsole (world st') (stdin st') (screen c ++ map Said (stdout st'))
       (trace st'), r).

Declare Scope cli_scope.
Delimit Scope cli_scope with cli.
Notation "x <- m ; k" := (cbind m (fun x => k))
  (at level 100, m at next level, k at level 200, right associativity) : cli_scope.
Notation "m ;; k" := (cbind m (fun _ => k))
  (at level 100, k at level 200, right associativity) : cli_scope.

Section Program.

Context {W : Type}.

(** The transport of a session: [session.request] with the credentials
    and the TLS policy of that session. *)
Variable transport : Session -> W -> Request -> W * Outcome.
Variable re_other : string -> option (string -> bool).

Local Open Scope cli_scope.

Definition __init__ (registry_url : string) (username password : option string)
    (verify_ssl dry_run : bool) : Cli W Client :=
  let url := rstrip "/" registry_url in
  let with_auth := given username && given password in
  (if with_auth
   then tell (MsgUsingAuthentication (default "" username))
   else cret tt);;
  (if negb verify_ssl then tell MsgSslVerificationDisabled else cret tt);;
  tell (MsgRegistryUrl url);;
  tell (MsgDryRunMode dry_run);;
  cret (mkClient (mkRegistryCleanup url dry_run) verify_ssl
          (mkSession
             (if with_auth
              then Some (default "" username, default "" password)
              else None)
             (if negb verify_ssl then false else true))).

(** The loop of [show_registry_info] over the repositories it shows. *)
Fixpoint show_each (self : Client) (repos : list string) : Cli W unit :=
  match repos with
  | [] => cret tt
  | repo :: rest =>
      tags <- run_core (list_tags (transport (session self)) (core self) repo);
      tell (MsgRepositoryTagCount repo (length tags));;
      show_each self rest
  end.

Definition show_registry_info (self : Client) : Cli W unit :=
  tell MsgRegistryInformation;;
  tell (MsgInformationUrl (registry_url (core self)));;
  reached <-
    ctry
      (run_core (_make_request (transport (session self)) (core self) GET "/" None);;
       tell MsgRegistryAccessible;;
       cret true)
      (fun e =>
         tell (MsgRegistryNotAccessible e);;
         cret false);
  if (reached : bool) then
    repositories <- run_core (list_repositories (transport (session self)) (core self));
    match repositories with
    | [] => cret tt
    | _ =>
        tell (MsgRepositoriesHeader (length repositories));;
        show_each self (take 10 repositories);;
        if (10 <? length repositories)%nat
        then tell (MsgMoreRepositories (length repositories - 10))
        else cret tt
    end
  else cret tt.

(** The second [try] of [main]: the requested operation, then the
    reminder. *)
Definition operation (cleanup : Client) (args : Args) : Cli W unit :=
  (if arg_info args then show_registry_info cleanup
   else if given (arg_pattern args) then
     run_core (cleanup_repositories_by_pattern (transport (session cleanup))
                 re_other (core cleanup) (default "" (arg_pattern args)));;
     cret tt
   else if given (arg_repository args) then
     counts <- run_core (cleanup_repository (transport (session cleanup))
                           (core cleanup) (default "" (arg_repository args)));
     tell (MsgSummary (fst counts) (snd counts))
   else cret tt);;
  if negb (arg_dry_run args)
     && (given (arg_pattern args) || given (arg_repository args))
  then
    tell MsgGarbageCollectionReminder;;
    tell MsgGarbageCollectionCommand
  else cret tt.

(** [main] after the parsing of the command line; the result is the exit
    status of the process: 1 where the source calls [sys.exit(1)], 0 where
    it returns. *)
Definition main (args : Args) (c : Console W) : Console W * Z :=
  if negb (arg_info args) && negb (given (arg_pattern args))
     && negb (given (arg_repository args))
  then (fst (cbind (tell MsgMustSpecify) (fun _ => tell MsgHelp) c), 1%Z)
  else if given (arg_pattern args) && given (arg_repository args)
  then (fst (tell MsgCannotSpecifyBoth c), 1%Z)
  else
    match __init__ (arg_registry args) (arg_username args) (arg_password args)
            (arg_verify_ssl args) (arg_dry_run args) c with
    | (c1, Raise e) => (fst (tell (MsgInitializationFailed e) c1), 1%Z)
    | (c1, Ok cleanup) =>
        match operation cleanup args c1 with
        | (c2, Ok _) => (c2, 0%Z)
        | (c2, Raise e) => (fst (tell (MsgOperationFailed e) c2), 1%Z)
        end
    end.

End Program.

(** The computation sends at most [n] requests, all of them GET, and reads
    nothing from the keyboard. *)
Definition only_reads {W A} (n : nat) (m : Cli W A) : Prop :=
  forall c, exists xs,
    history (fst (m c)) = history c ++ xs
    /\ Forall is_get xs
    /\ (length xs <= n)%nat
    /\ keyboard (fst (m c)) = keyboard c.

(** The client [main] builds from the command line. *)
Definition built (args : Args) : Client :=
  mkClient
    (mkRegistryCleanup (rstrip "/" (arg_registry args)) (arg_dry_run args))
    (arg_verify_ssl args)
    (mkSession
       (if given (arg_username args) && given (arg_password args)
        then Some (default "" (arg_username args), default "" (arg_password args))
        else None)
       (if negb (arg_verify_ssl args) then false else true)).

(** The command line names nothing to do, or names both a pattern and a
    repository. *)
Definition usage_error (args : Args) : bool :=
  negb (arg_info args) && negb (given (arg_pattern args))
    && negb (given (arg_repository args))
  || given (arg_pattern args) && given (arg_repository args).

(** ** Registries for the scenarios *)

(** A registry without memory: the answer depends on the request only. *)
Definition static (answer : Request -> Outcome) (w : unit) (req : Request)
    : unit * Outcome :=
  (w, answer req).

Definition no_re : string -> option (string -> bool) := fun _ => None.

Definition client (dry : bool) : RegistryCleanup :=
  mkRegistryCleanup "https://registry.cluster:5000" dry.

Definition start (keyboard : list string) : State unit :=
  mkState tt keyboard [] [].

Definition status (code : Z) : Outcome := Answer (mkResponse code ∅ None).

Definition with_digest (digest : string) : Outcome :=
  Answer (mkResponse 200 {[ "docker-content-digest" := digest ]} None).

Definition with_field (field : string) (values : list string) : Outcome :=
  Answer (mkResponse 200 ∅ (Some (JsonObject {[ field := Some values ]}))).

Definition ends_with (suffix s : string) : bool :=
  let n := String.length s in
  let k := String.length suffix in
  String.eqb (String.substring (n - k) k s) suffix.

(** A repository without tags: every tag list is the empty array. *)
Definition no_tags : Request -> Outcome := fun _ => with_field "tags" [].

(** Two tags are listed, and every manifest probe is answered with status
    500. *)
Definition broken_manifests (req : Request) : Outcome :=
  match method req with
  | GET => with_field "tags" ["v1"; "v2"]
  | HEAD => status 500
  | DELETE => status 202
  end.

(** The same registry for every session. *)
Definition any_session (answer : Request -> Outcome) (s : Session) (w : unit)
    (req : Request) : unit * Outcome :=
  static answer w req.

Definition console (lines : list string) : Console unit :=
  mkConsole tt lines [] [].

(** A command line for the registry of the scenarios. *)
Definition command (pattern repository : option string) (dry info : bool) : Args :=
  mkArgs "https://registry.cluster:5000/" pattern repository None None dry info false.


(** Every request is answered with one status and no body. *)
Definition always (code : Z) : Request -> Outcome := fun _ => status code.

(** The manifest answers only to the schema1 media type; the schema2 probe
    gets [first]. *)
Definition second_type_only (first : Outcome) (req : Request) : Outcome :=
  match method req, accept req with
  | HEAD, Some "application/vnd.docker.distribution.manifest.v2+json" => first
  | HEAD, Some "application/vnd.docker.distribution.manifest.v1+json" =>
      with_digest "sha256:aa"
  | _, _ => status 404
  end.

(** A catalog of the given repositories, each with the one tag [latest],
    resolvable to a digest; deletions are accepted. *)
Definition simple_registry (repositories : list string) (req : Request) : Outcome :=
  match method req with
  | GET =>
      if ends_with "/_catalog" (url req) then with_field "repositories" repositories
      else with_field "tags" ["latest"]
  | HEAD => with_digest "sha256:aa"
  | DELETE => status 202
  end.

(** * Properties *)

Section Facts.

Context {W : Type}.
Variable session_request : W -> Request -> W * Outcome.
Variable re_other : string -> option (string -> bool).

Local Open Scope py_scope.

Lemma wrote_nil (st : State W) : wrote st [] = st.
Proof. destruct st; unfold wrote; simpl. by rewrite app_nil_r. Qed.

Lemma wrote_wrote (st : State W) a b : wrote (wrote st a) b = wrote st (a ++ b).
Proof. unfold wrote; simpl. by rewrite app_assoc. Qed.

Lemma print_run (st : State W) m : print m st = (wrote st [m], Ok tt).
Proof. reflexivity. Qed.

(** *** The request helper *)

Lemma _make_request_run self m path acc (st : State W) :
  _make_request session_request self m path acc st =
    let req := mkRequest m (registry_url self +:+ "/v2" +:+ path) acc in
    let (w', o) := session_request (world st) req in
    (after st req w' o (request_log m (url req) o),
     match o with
     | Answer r => if is_error_status r then Raise (HTTPError r) else Ok r
     | Failure e => Raise (Transport e)
     end).
Proof.
  unfold _make_request, try_except, bind, request, raise_for_status; simpl.
  destruct (session_request _ _) as [w' o].
  destruct o as [r | [|]]; simpl.
  - destruct (is_error_status r) eqn:E; simpl; unfold after; simpl;
      by rewrite ?app_nil_r.
  - reflexivity.
  - unfold after; simpl. by rewrite app_nil_r.
Qed.

(** *** One manifest probe *)

Lemma probe_run self repository tag manifest_type (st : State W) :
  probe session_request self repository tag manifest_type st =
    let req := mkRequest HEAD
                 (registry_url self +:+ "/v2" +:+ "/" +:+ repository
                    +:+ "/manifests/" +:+ tag) (Some manifest_type) in
    let (w', o) := session_request (world st) req in
    (after st req w' o (request_log HEAD (url req) o),
     match classify o with
     | Found digest => Ok (Some digest)
     | Next => Ok None
     | Abort e => Raise e
     end).
Proof.
  unfold probe, try_except, bind. rewrite _make_request_run. simpl.
  destruct (session_request _ _) as [w' o].
  destruct o as [r | e]; simpl; [| reflexivity].
  destruct (is_error_status r); simpl.
  - by destruct (status_code r =? 404)%Z.
  - destruct (headers_get r _) as [d |]; [| reflexivity].
    by destruct (Py.truthy d).
Qed.

(** *** Digest resolution *)

Lemma probe_each_run self repository tag types (st : State W) :
  let run := probe_each session_request self repository tag types st in
  let all := exchange_all session_request (world st)
               (probes_for self repository tag types) in
  snd run = verdict_result (first_verdict all)
  /\ trace (fst run) = trace st ++ until_verdict all.
Proof.
  revert st. induction types as [| ty types IH]; intros st; simpl.
  - split; [reflexivity |]. by rewrite app_nil_r.
  - unfold bind. rewrite probe_run. simpl.
    destruct (session_request _ _) as [w' o]. simpl.
    destruct (classify o) eqn:E; simpl; try (split; reflexivity).
    specialize (IH (after st
      (mkRequest HEAD
         (registry_url self +:+ "/v2" +:+ "/" +:+ repository
            +:+ "/manifests/" +:+ tag) (Some ty)) w' o
      (request_log HEAD
         (registry_url self +:+ "/v2" +:+ "/" +:+ repository
            +:+ "/manifests/" +:+ tag) o))).
    simpl in IH. destruct IH as [IH1 IH2]. split; [exact IH1 |].
    rewrite IH2. by rewrite <- app_assoc.
Qed.

Lemma get_manifest_digest_run self repository tag (st : State W) :
  let run := get_manifest_digest session_request self repository tag st in
  let all := exchange_all session_request (world st)
               (manifest_probes self repository tag) in
  snd run = verdict_result (first_verdict all)
  /\ trace (fst run) = trace st ++ until_verdict all.
Proof. apply (probe_each_run self repository tag manifest_types st). Qed.

(** *** The two listings *)

Lemma list_tags_run self repository (st : State W) :
  let run := list_tags session_request self repository st in
  let req := tags_request self repository in
  snd run = tags_result (snd (session_request (world st) req))
  /\ trace (fst run) = trace st ++ [(req, snd (session_request (world st) req))]
  /\ world (fst run) = fst (session_request (world st) req)
  /\ stdin (fst run) = stdin st.
Proof.
  unfold list_tags, try_except, bind. rewrite _make_request_run. simpl.
  unfold tags_request, tags_result, listed, json, get.
  destruct (session_request _ _) as [w' o]. simpl.
  destruct o as [r | e]; simpl; [| done].
  destruct (is_error_status r); simpl.
  - by destruct (status_code r =? 404)%Z.
  - destruct (body r) as [[fields |] |]; simpl; try done.
    destruct (fields !! "tags") as [[[| t ts] |] |]; simpl; done.
Qed.

Lemma list_repositories_run self (st : State W) :
  let run := list_repositories session_request self st in
  let req := catalog_request self in
  snd run = Ok (repositories_result (snd (session_request (world st) req)))
  /\ trace (fst run) = trace st ++ [(req, snd (session_request (world st) req))]
  /\ world (fst run) = fst (session_request (world st) req)
  /\ stdin (fst run) = stdin st.
Proof.
  unfold list_repositories, try_except, bind. rewrite print_run.
  rewrite _make_request_run. simpl.
  unfold catalog_request, repositories_result, listed, json, get.
  destruct (session_request _ _) as [w' o]. simpl.
  destruct o as [r | e]; simpl; [| done].
  destruct (is_error_status r); simpl; [done |].
  destruct (body r) as [[fields |] |]; simpl; try done.
  destruct (fields !! "repositories") as [[l |] |]; simpl; done.
Qed.

(** *** Deleting a manifest *)

Lemma delete_manifest_dry_run self repository digest (st : State W) :
  dry_run self = true ->
  delete_manifest session_request self repository digest st =
    (wrote st [MsgDryRunWouldDelete digest], Ok true).
Proof. intros Hdry. unfold delete_manifest. by rewrite Hdry. Qed.

Lemma delete_manifest_run self repository digest (st : State W) :
  dry_run self = false ->
  let run := delete_manifest session_request self repository digest st in
  let req := delete_request self repository digest in
  snd run = Ok (delete_result (snd (session_request (world st) req)))
  /\ trace (fst run) = trace st ++ [(req, snd (session_request (world st) req))]
  /\ world (fst run) = fst (session_request (world st) req)
  /\ stdin (fst run) = stdin st.
Proof.
  intros Hdry. unfold delete_manifest. rewrite Hdry.
  unfold try_except, bind. rewrite _make_request_run. simpl.
  unfold delete_request, delete_result.
  destruct (session_request _ _) as [w' o]. simpl.
  destruct o as [r | e]; simpl; [| done].
  destruct (is_error_status r) eqn:E; simpl.
  - split; [| done]. f_equal. symmetry.
    unfold is_error_status in E. lia.
  - by destruct ((status_code r =? 202) || (status_code r =? 204))%Z.
Qed.


(** *** Counting in the history *)

Lemma deletes_app t1 t2 : deletes (t1 ++ t2) = (deletes t1 + deletes t2)%nat.
Proof. unfold deletes. by rewrite List.filter_app, length_app. Qed.

Lemma resolutions_app t1 t2 : resolutions (t1 ++ t2) = (resolutions t1 + resolutions t2)%Z.
Proof. unfold resolutions. rewrite List.filter_app, length_app. lia. Qed.

Lemma exchange_all_requests (w : W) reqs :
  map fst (exchange_all session_request w reqs) = reqs.
Proof.
  revert w. induction reqs as [| req reqs IH]; intros w; simpl; [done |].
  destruct (session_request w req) as [w' o]. simpl. by rewrite IH.
Qed.

Lemma until_verdict_heads xs :
  Forall (fun x => is_head x = true) xs ->
  deletes (until_verdict xs) = 0%nat
  /\ resolutions (until_verdict xs)
     = match first_verdict xs with Found _ => 1 | _ => 0 end.
Proof.
  induction 1 as [| x xs Hx _ [IHd IHr]]; simpl; [done |].
  assert (Hd : is_delete x = false).
  { unfold is_head in Hx. unfold is_delete. by destruct (method (fst x)). }
  destruct (classify (snd x)) eqn:E.
  - unfold deletes, resolutions, is_resolution. simpl. by rewrite Hd, Hx, E.
  - change (x :: until_verdict xs) with ([x] ++ until_verdict xs).
    rewrite deletes_app, resolutions_app, IHd, IHr.
    unfold deletes, resolutions, is_resolution. simpl. by rewrite Hd, Hx, E.
  - unfold deletes, resolutions, is_resolution. simpl. by rewrite Hd, Hx, E.
Qed.

Lemma classify_found o digest : classify o = Found digest -> Py.truthy digest = true.
Proof.
  unfold classify. destruct o as [r | e]; [| done].
  destruct (is_error_status r); [by destruct (status_code r =? 404)%Z |].
  destruct (headers_get r _) as [d |]; [| done].
  destruct (Py.truthy d) eqn:E; [| done]. by intros [= <-].
Qed.

Lemma first_verdict_found xs digest :
  first_verdict xs = Found digest -> Py.truthy digest = true.
Proof.
  induction xs as [| x xs IH]; simpl; [done |].
  destruct (classify (snd x)) eqn:E; [| done | done].
  intros [= <-]. by apply classify_found in E.
Qed.

Lemma get_manifest_digest_counts self repository tag (st : State W) :
  let run := get_manifest_digest session_request self repository tag st in
  deletes (trace (fst run)) = deletes (trace st)
  /\ resolutions (trace (fst run))
     = (resolutions (trace st)
        + match snd run with Ok (Some _) => 1 | _ => 0 end)%Z
  /\ (forall digest, snd run = Ok (Some digest) -> Py.truthy digest = true).
Proof.
  destruct (get_manifest_digest_run self repository tag st) as [Hr Ht].
  simpl. rewrite Hr, Ht. clear Hr Ht.
  set (all := exchange_all _ _ _).
  assert (Hh : Forall (fun x => is_head x = true) all).
  { apply List.Forall_forall. intros x Hx.
    assert (Hin : In (fst x) (map fst all)) by (by apply in_map).
    unfold all in Hin. rewrite exchange_all_requests in Hin.
    unfold is_head. simpl in Hin.
    destruct Hin as [<- | [<- | [<- | []]]]; done. }
  destruct (until_verdict_heads all Hh) as [Hd Hres].
  rewrite deletes_app, resolutions_app, Hd, Hres.
  split; [lia |]. split.
  - by destruct (first_verdict all).
  - intros digest. destruct (first_verdict all) eqn:E; simpl; try done.
    intros [= <-]. by apply first_verdict_found in E.
Qed.

(** *** The loop over the tags *)

Lemma delete_manifest_total self repository digest (st : State W) :
  exists deleted,
    snd (delete_manifest session_request self repository digest st) = Ok deleted.
Proof.
  destruct (dry_run self) eqn:Hdry.
  - rewrite delete_manifest_dry_run by done. by exists true.
  - destruct (delete_manifest_run self repository digest st Hdry) as [Hr _].
    eauto.
Qed.

(** One turn of the loop, by what digest resolution and deletion return. *)
Lemma cleanup_tags_step self repository tag rest deleted_count failed_count
    (st : State W) :
  let st0 := wrote st [MsgProcessingTag tag] in
  let resolved := get_manifest_digest session_request self repository tag st0 in
  cleanup_tags session_request self repository (tag :: rest)
    deleted_count failed_count st =
  match snd resolved with
  | Raise e => (fst resolved, Raise e)
  | Ok None =>
      cleanup_tags session_request self repository rest
        deleted_count (failed_count + 1) (fst resolved)
  | Ok (Some digest) =>
      if Py.truthy digest then
        let removed :=
          delete_manifest session_request self repository digest (fst resolved) in
        match snd removed with
        | Raise e => (fst removed, Raise e)
        | Ok true =>
            cleanup_tags session_request self repository rest
              (deleted_count + 1) failed_count (fst removed)
        | Ok false =>
            cleanup_tags session_request self repository rest
              deleted_count (failed_count + 1) (fst removed)
        end
      else
        cleanup_tags session_request self repository rest
          deleted_count (failed_count + 1) (fst resolved)
  end.
Proof.
  simpl. unfold bind at 1. rewrite print_run. unfold bind at 1.
  destruct (get_manifest_digest _ _ _ _ _) as [st1 [[digest |] | e]]; simpl; try done.
  destruct (Py.truthy digest); [| done].
  unfold bind at 1.
  by destruct (delete_manifest _ _ _ _ _) as [st2 [[|] | e]].
Qed.

Lemma cleanup_tags_counts self repository tags :
  forall deleted_count failed_count (st : State W) deleted failed,
    snd (cleanup_tags session_request self repository tags
           deleted_count failed_count st) = Ok (deleted, failed) ->
    (deleted + failed = deleted_count + failed_count + Z.of_nat (length tags)
     /\ deleted_count <= deleted /\ failed_count <= failed)%Z.
Proof.
  induction tags as [| tag rest IH]; intros d f st d' f'.
  - simpl. intros [= <- <-]. lia.
  - rewrite cleanup_tags_step. simpl length.
    destruct (get_manifest_digest _ _ _ _ _) as [st1 [[digest |] | e]]; simpl;
      [| | done].
    + destruct (Py.truthy digest).
      * destruct (delete_manifest _ _ _ _ _) as [st2 [[|] | e]]; simpl;
          [| | done]; intros H; apply IH in H; lia.
      * intros H; apply IH in H; lia.
    + intros H; apply IH in H; lia.
Qed.

Lemma cleanup_tags_dry_run self repository tags :
  dry_run self = true ->
  forall deleted_count failed_count (st : State W),
    let run := cleanup_tags session_request self repository tags
                 deleted_count failed_count st in
    deletes (trace (fst run)) = deletes (trace st)
    /\ forall deleted failed,
         snd run = Ok (deleted, failed) ->
         (deleted = deleted_count
                    + (resolutions (trace (fst run)) - resolutions (trace st)))%Z.
Proof.
  intros Hdry. induction tags as [| tag rest IH]; intros d f st.
  - simpl. split; [done |]. intros d' f' [= <- <-]. lia.
  - cbv zeta. rewrite cleanup_tags_step.
    pose proof (get_manifest_digest_counts self repository tag
                  (wrote st [MsgProcessingTag tag])) as (Hd & Hr & Ht).
    cbv zeta in Hd, Hr, Ht. simpl trace in Hd, Hr.
    destruct (get_manifest_digest _ _ _ _ _) as [st1 [[digest |] | e]];
      simpl in *.
    + rewrite (Ht digest eq_refl).
      rewrite delete_manifest_dry_run by done. simpl.
      destruct (IH (d + 1)%Z f (wrote st1 [MsgDryRunWouldDelete digest]))
        as [IHd IHr].
      simpl in IHd, IHr. split; [congruence |].
      intros d' f' H. apply IHr in H. lia.
    + destruct (IH d (f + 1)%Z st1) as [IHd IHr].
      split; [congruence |].
      intros d' f' H. apply IHr in H. lia.
    + split; [done | done].
Qed.

(** *** One repository *)

Local Arguments cleanup_tags : simpl never.
Local Arguments list_tags : simpl never.

Lemma cleanup_repository_run self repository (st : State W) :
  let listing :=
    list_tags session_request self repository
      (wrote st [MsgCleaningRepository repository]) in
  cleanup_repository session_request self repository st =
  match snd listing with
  | Raise e => (fst listing, Raise e)
  | Ok [] => (fst listing, Ok (0, 0)%Z)
  | Ok tags =>
      let looped :=
        cleanup_tags session_request self repository tags 0 0 (fst listing) in
      match snd looped with
      | Raise e => (fst looped, Raise e)
      | Ok counts =>
          (wrote (fst looped)
             [MsgRepositorySummary repository (fst counts) (snd counts)],
           Ok counts)
      end
  end.
Proof.
  unfold cleanup_repository. unfold bind at 1. rewrite print_run.
  unfold bind at 1.
  destruct (list_tags _ _ _ _) as [st1 [[| t ts] | e]]; cbn [fst snd]; try done.
  unfold bind at 1.
  by destruct (cleanup_tags _ _ _ _ _ _ _) as [st2 [counts | e]].
Qed.

Lemma cleanup_repository_counts self repository (st : State W) deleted failed :
  snd (cleanup_repository session_request self repository st) = Ok (deleted, failed) ->
  exists tags,
    snd (list_tags session_request self repository
           (wrote st [MsgCleaningRepository repository])) = Ok tags
    /\ (deleted + failed = Z.of_nat (length tags) /\ 0 <= deleted /\ 0 <= failed)%Z.
Proof.
  rewrite cleanup_repository_run. cbv zeta.
  destruct (list_tags _ _ _ _) as [st1 [tags | e]]; simpl; [| done].
  destruct tags as [| t ts].
  - simpl. intros [= <- <-]. exists []. simpl. split; [done | lia].
  - destruct (cleanup_tags _ _ _ _ _ _ _) as [st2 [counts | e]] eqn:E; simpl;
      [| done].
    intros [= ->]. exists (t :: ts). split; [done |].
    pose proof (cleanup_tags_counts self repository (t :: ts) 0 0 st1
                  deleted failed) as H.
    rewrite E in H. specialize (H eq_refl). lia.
Qed.

Lemma listing_counts (t : list (Request * Outcome)) req o :
  method req = GET ->
  deletes (t ++ [(req, o)]) = deletes t
  /\ resolutions (t ++ [(req, o)]) = resolutions t.
Proof.
  intros Hm. rewrite deletes_app, resolutions_app.
  unfold deletes, resolutions, is_resolution, is_delete, is_head. simpl.
  rewrite Hm. simpl. lia.
Qed.

Lemma cleanup_repository_dry_run self repository (st : State W) :
  dry_run self = true ->
  let run := cleanup_repository session_request self repository st in
  deletes (trace (fst run)) = deletes (trace st)
  /\ forall deleted failed,
       snd run = Ok (deleted, failed) ->
       deleted = (resolutions (trace (fst run)) - resolutions (trace st))%Z.
Proof.
  intros Hdry. cbv zeta. rewrite cleanup_repository_run. cbv zeta.
  pose proof (list_tags_run self repository
                (wrote st [MsgCleaningRepository repository])) as (_ & Ht & _).
  cbv zeta in Ht. simpl trace in Ht.
  destruct (listing_counts (trace st) (tags_request self repository)
              (snd (session_request (world st) (tags_request self repository)))
              eq_refl) as [Hd Hr].
  simpl world in Ht. rewrite <- Ht in Hd, Hr. clear Ht.
  destruct (list_tags _ _ _ _) as [st1 [tags | e]]; simpl in *; [| done].
  destruct tags as [| t ts]; simpl.
  - split; [done |]. intros d f [= <- <-]. lia.
  - pose proof (cleanup_tags_dry_run self repository (t :: ts) Hdry 0 0 st1)
      as [Hd2 Hr2].
    cbv zeta in Hd2, Hr2.
    destruct (cleanup_tags _ _ _ _ _ _ _) as [st2 [counts | e]]; simpl in *.
    + split; [congruence |]. intros d f [= ->].
      specialize (Hr2 d f eq_refl). lia.
    + split; [congruence | done].
Qed.

(** *** The matching repositories *)

Local Arguments cleanup_repository : simpl never.

Lemma cleanup_each_run self repos :
  forall results total_deleted total_failed (st : State W),
    cleanup_each session_request self repos results total_deleted total_failed st =
    match cleanup_all session_request self repos st with
    | (st', Ok cs) =>
        (st', Ok (record results (zip repos cs),
                  total_deleted + total (map fst cs),
                  total_failed + total (map snd cs))%Z)
    | (st', Raise e) => (st', Raise e)
    end.
Proof.
  induction repos as [| repo rest IH]; intros results td tf st; simpl.
  - unfold ret. by rewrite !Z.add_0_r.
  - unfold bind.
    destruct (cleanup_repository _ _ _ _) as [st1 [counts | e]]; [| done].
    rewrite IH.
    destruct (cleanup_all _ _ _ _) as [st2 [cs | e]]; [| done].
    unfold ret. simpl. by rewrite !Z.add_assoc.
Qed.


Lemma cleanup_all_dry_run self repos :
  dry_run self = true ->
  forall (st : State W),
    let run := cleanup_all session_request self repos st in
    deletes (trace (fst run)) = deletes (trace st)
    /\ forall cs,
         snd run = Ok cs ->
         total (map fst cs)
         = (resolutions (trace (fst run)) - resolutions (trace st))%Z.
Proof.
  intros Hdry. induction repos as [| repo rest IH]; intros st; simpl.
  - split; [done |]. intros cs [= <-]. simpl. lia.
  - unfold bind.
    pose proof (cleanup_repository_dry_run self repo st Hdry) as [Hd Hr].
    cbv zeta in Hd, Hr.
    destruct (cleanup_repository _ _ _ _) as [st1 [[d f] | e]]; simpl in *;
      [| done].
    specialize (IH st1). cbv zeta in IH. destruct IH as [IHd IHr].
    destruct (cleanup_all _ _ _ _) as [st2 [cs | e]]; simpl in *.
    + split; [congruence |]. intros cs' [= <-]. simpl.
      specialize (Hr d f eq_refl). specialize (IHr cs eq_refl). lia.
    + split; [congruence | done].
Qed.

Lemma cleanup_matching_run self matching (st : State W) :
  cleanup_matching session_request self matching st =
  match cleanup_all session_request self matching st with
  | (st', Ok cs) =>
      (wrote st' (report (length matching) (total (map fst cs)) (total (map snd cs))),
       Ok (record ∅ (zip matching cs)))
  | (st', Raise e) => (st', Raise e)
  end.
Proof.
  unfold cleanup_matching. unfold bind at 1. rewrite cleanup_each_run.
  destruct (cleanup_all _ _ _ _) as [st' [cs | e]]; [| done].
  unfold bind. rewrite !print_run. unfold ret, report.
  rewrite !wrote_wrote. simpl. by rewrite !Z.add_0_l.
Qed.

Lemma print_each_run repos (st : State W) :
  print_each repos st = (wrote st (map MsgMatchingRepository repos), Ok tt).
Proof.
  revert st. induction repos as [| repo rest IH]; intros st; simpl.
  - unfold ret. by rewrite wrote_nil.
  - unfold bind. rewrite print_run, IH. by rewrite wrote_wrote.
Qed.

(** *** The result mapping *)




(** *** Cleanup by pattern *)

Local Arguments cleanup_matching : simpl never.
Local Arguments list_repositories : simpl never.

(** The course of [cleanup_repositories_by_pattern], stage by stage. *)
Lemma cleanup_repositories_by_pattern_run self pattern (st : State W) :
  let listing :=
    list_repositories session_request self (wrote st [MsgFindingPattern pattern]) in
  let st1 := fst listing in
  cleanup_repositories_by_pattern session_request re_other self pattern st =
  match snd listing with
  | Raise e => (st1, Raise e)
  | Ok [] => (wrote st1 [MsgNoRepositoriesFound], Ok ∅)
  | Ok repositories =>
      match re_compile re_other (regex_source pattern) with
      | Raise e => (st1, Raise e)
      | Ok regex =>
          match List.filter regex repositories with
          | [] => (wrote st1 [MsgNoPatternMatch pattern], Ok ∅)
          | matching =>
              if dry_run self then
                cleanup_matching session_request self matching
                  (announced st1 matching)
              else
                match stdin st1 with
                | [] =>
                    (wrote (announced st1 matching)
                       [MsgDeleteWarning (length matching); MsgConfirmPrompt],
                     Raise EOFError)
                | confirm :: rest =>
                    if String.eqb (Py.lower confirm) "yes" then
                      cleanup_matching session_request self matching
                        (confirmed st1 matching rest)
                    else
                      (wrote (confirmed st1 matching rest) [MsgOperationCancelled],
                       Ok ∅)
                end
          end
      end
  end.
Proof.
  cbv zeta. unfold cleanup_repositories_by_pattern.
  unfold bind at 1. rewrite print_run. unfold bind at 1.
  destruct (list_repositories _ _ _) as [st1 [[| r rs] | e]]; cbn [fst snd];
    [done | | done].
  unfold bind at 1, lift at 1.
  destruct (re_compile _ _) as [regex | e]; [| done].
  destruct (List.filter regex (r :: rs)) as [| m ms]; [done |].
  unfold bind at 1. rewrite print_run. unfold bind at 1.
  rewrite print_each_run. rewrite wrote_wrote.
  change ([MsgFoundMatching (length (m :: ms))]
            ++ map MsgMatchingRepository (m :: ms))
    with (MsgFoundMatching (length (m :: ms))
            :: map MsgMatchingRepository (m :: ms)).
  fold (announced st1 (m :: ms)).
  destruct (dry_run self); cbn [negb]; [done |].
  unfold bind at 1. rewrite print_run. unfold bind at 1.
  unfold input. cbn [stdin wrote announced].
  destruct (stdin st1) as [| confirm rest] eqn:Hin.
  - unfold wrote, announced. cbn. rewrite Hin, <- !app_assoc. reflexivity.
  - match goal with
    | |- _ ?s = _ =>
        assert (Hst : s = confirmed st1 (m :: ms) rest);
        [ unfold confirmed, announced, wrote; cbn; by rewrite <- !app_assoc
        | rewrite Hst ]
    end.
    destruct (String.eqb (Py.lower confirm) "yes"); cbn [negb]; [done |].
    unfold bind. by rewrite print_run.
Qed.

(** *** The pattern *)

Lemma append_nil s : "" +:+ s = s.
Proof. reflexivity. Qed.

Lemma append_cons c s t : String c s +:+ t = String c (s +:+ t).
Proof. reflexivity. Qed.

Lemma regex_pattern_translate pattern : regex_pattern pattern = spec_translate pattern.
Proof.
  unfold regex_pattern. induction pattern as [| c rest IH]; simpl; [done |].
  destruct (Ascii.eqb c "*") eqn:Es; simpl; rewrite ?append_cons, ?append_nil.
  - by rewrite IH.
  - destruct (Ascii.eqb c "?"); simpl; rewrite ?append_cons, ?append_nil;
      by rewrite IH.
Qed.

Lemma run_any_star whole r start s :
  Re.run whole (Re.AnyStar :: r) start s =
    Re.run whole r start s
    || match s with
       | String c' s' =>
           negb (Ascii.eqb c' Py.newline) && Re.run whole (Re.AnyStar :: r) false s'
       | EmptyString => false
       end.
Proof. by destruct s. Qed.

Lemma glob_char_plain c :
  glob_char c = true -> Ascii.eqb c "?" = false ->
  Ascii.eqb c "^" = false /\ Ascii.eqb c "$" = false /\ Re.special c = false.
Proof.
  unfold glob_char, Re.special. simpl. intros H Hq. rewrite Hq.
  repeat match goal with
         | H : context [Ascii.eqb c ?x] |- _ =>
             destruct (Ascii.eqb c x); simpl in H; try discriminate
         end.
  done.
Qed.

Lemma translate_no_star pattern suffix :
  starts_with_star suffix = false ->
  starts_with_star (spec_translate pattern +:+ suffix) = false.
Proof.
  intros Hs. destruct pattern as [| c rest]; cbn [spec_translate]; [done |].
  destruct (Ascii.eqb c "*") eqn:Es; [by rewrite !append_cons |].
  destruct (Ascii.eqb c "?"); rewrite !append_cons; [done |].
  exact Es.
Qed.

Lemma compile_dot_star s :
  starts_with_star s = false ->
  Re.compile (String "." (String "*" s)) = cons Re.AnyStar <$> Re.compile s.
Proof. destruct s as [| c s']; simpl; [done |]. by intros ->. Qed.

Lemma compile_dot s :
  starts_with_star s = false ->
  Re.compile (String "." s) = cons Re.Any <$> Re.compile s.
Proof. destruct s as [| c s']; simpl; [done |]. by intros ->. Qed.

Lemma compile_lit c s :
  Ascii.eqb c "^" = false -> Ascii.eqb c "$" = false ->
  Ascii.eqb c "*" = false -> Re.special c = false ->
  Ascii.eqb c "." = false ->
  Re.compile (String c s) = cons (Re.Lit c) <$> Re.compile s.
Proof. intros Hb He Hs Hsp Hd. cbn [Re.compile]. by rewrite Hb, He, Hs, Hsp, Hd. Qed.

Lemma compile_translate pattern :
  glob_pattern pattern = true ->
  forall suffix,
    starts_with_star suffix = false ->
    Re.compile (spec_translate pattern +:+ suffix)
    = (fun items => glob_items pattern ++ items) <$> Re.compile suffix.
Proof.
  induction pattern as [| c rest IH]; intros Hg suffix Hs.
  - simpl. rewrite append_nil. by destruct (Re.compile suffix).
  - simpl in Hg. apply andb_prop in Hg as [Hc Hg].
    specialize (IH Hg suffix Hs).
    pose proof (translate_no_star rest suffix Hs) as Hn.
    cbn [spec_translate glob_items].
    destruct (Ascii.eqb c "*") eqn:Es.
    + rewrite !append_cons, append_nil, compile_dot_star, IH by done.
      by destruct (Re.compile suffix).
    + destruct (Ascii.eqb c "?") eqn:Eq.
      * rewrite !append_cons, append_nil, compile_dot, IH by done.
        by destruct (Re.compile suffix).
      * destruct (glob_char_plain c Hc Eq) as (Hb & He & Hsp).
        rewrite !append_cons, append_nil.
        destruct (Ascii.eqb c ".") eqn:Ed.
        -- apply Ascii.eqb_eq in Ed as ->.
           rewrite compile_dot, IH by done. by destruct (Re.compile suffix).
        -- rewrite compile_lit, IH by done. by destruct (Re.compile suffix).
Qed.

Lemma compile_source pattern :
  glob_pattern pattern = true ->
  Re.compile (regex_pattern pattern) = Some (glob_items pattern)
  /\ Re.compile (regex_source pattern)
     = Some (Re.Bol :: glob_items pattern ++ [Re.Eol]).
Proof.
  intros Hg. unfold regex_source. rewrite regex_pattern_translate. split.
  - pose proof (compile_translate pattern Hg "" eq_refl) as H.
    assert (Hnil : forall s, s +:+ "" = s).
    { induction s as [| a s IHs]; [done |]. by rewrite append_cons, IHs. }
    rewrite Hnil in H. rewrite H. simpl. by rewrite app_nil_r.
  - rewrite append_cons, append_nil. cbn [Re.compile].
    change (Ascii.eqb "^" "^") with true. cbn match.
    by rewrite (compile_translate pattern Hg "$" eq_refl).
Qed.

Local Arguments chomp : simpl never.

Lemma chomp_one a :
  chomp (String a "") = if Ascii.eqb a Py.newline then Some "" else None.
Proof. reflexivity. Qed.

Lemma chomp_cons a a' s :
  chomp (String a (String a' s)) = String a <$> chomp (String a' s).
Proof. reflexivity. Qed.

(** [$] after the items of a pattern: what [match] accepts is a full
    match, up to one final newline. *)
Lemma run_eol pattern :
  forall start name,
    Re.run false (glob_items pattern ++ [Re.Eol]) start name
    = fullmatch_or_chomped (glob_items pattern) start name.
Proof.
  unfold fullmatch_or_chomped.
  induction pattern as [| c rest IH]; intros start name.
  - destruct name as [| a [| a' s']]; simpl; try done.
    + rewrite chomp_one. destruct (Ascii.eqb a Py.newline); done.
    + rewrite chomp_cons. by destruct (chomp (String a' s')).
  - cbn [glob_items]. rewrite <- app_comm_cons.
    set (r := glob_items rest) in *.
    destruct (Ascii.eqb c "*").
    { revert start. induction name as [| a s0 IHs]; intros start.
      - rewrite !run_any_star, IH. simpl. by rewrite !orb_false_r.
      - rewrite (run_any_star false), (run_any_star true), IH, IHs.
        destruct s0 as [| a1 s1].
        + rewrite chomp_one. destruct (Ascii.eqb a Py.newline); cbn [negb andb orb].
          * rewrite run_any_star. by rewrite !orb_false_r.
          * by rewrite !orb_false_r.
        + rewrite chomp_cons.
          destruct (chomp (String a1 s1)) as [t |]; cbn [fmap option_fmap option_map].
          * rewrite (run_any_star true r start (String a t)).
            destruct (Re.run true r start (String a (String a1 s1))),
                     (Re.run true r start (String a t)),
                     (negb (Ascii.eqb a Py.newline)),
                     (Re.run true (Re.AnyStar :: r) false (String a1 s1)),
                     (Re.run true (Re.AnyStar :: r) false t); done.
          * by rewrite !orb_false_r. }
    assert (Hstep : forall (test : ascii -> bool) item,
      (forall whole items st nm,
         Re.run whole (item :: items) st nm
         = match nm with
           | String a s' => test a && Re.run whole items false s'
           | EmptyString => false
           end) ->
      Re.run false (item :: r ++ [Re.Eol]) start name
      = Re.run true (item :: r) start name
        || match chomp name with
           | Some name' => Re.run true (item :: r) start name'
           | None => false
           end).
    { intros test item Hrun. rewrite !Hrun.
      destruct name as [| a s0]; [done |].
      rewrite IH. destruct s0 as [| a1 s1].
      - rewrite chomp_one. destruct (Ascii.eqb a Py.newline); rewrite ?Hrun;
          by rewrite !orb_false_r.
      - rewrite chomp_cons.
        destruct (chomp (String a1 s1)) as [t |]; cbn [fmap option_fmap option_map].
        + rewrite Hrun. by rewrite andb_orb_distrib_r.
        + by rewrite !orb_false_r. }
    destruct (Ascii.eqb c "?"); [| destruct (Ascii.eqb c ".")].
    + apply (Hstep (fun a => negb (Ascii.eqb a Py.newline))). by intros ? ? ? [].
    + apply (Hstep (fun a => negb (Ascii.eqb a Py.newline))). by intros ? ? ? [].
    + apply (Hstep (fun a => Ascii.eqb a c)). by intros ? ? ? [].
Qed.

(** The fallback among the probes: the first yields nothing, the second a
    digest, and that digest is the result. *)
Lemma get_manifest_digest_fallback self repository tag (st : State W)
    p1 p2 p3 w1 o1 w2 o2 digest :
  manifest_probes self repository tag = [p1; p2; p3] ->
  session_request (world st) p1 = (w1, o1) ->
  classify o1 = Next ->
  session_request w1 p2 = (w2, o2) ->
  classify o2 = Found digest ->
  snd (get_manifest_digest session_request self repository tag st) = Ok (Some digest).
Proof.
  intros Hp H1 Hc1 H2 Hc2.
  destruct (get_manifest_digest_run self repository tag st) as [Hr _].
  rewrite Hr, Hp. simpl. rewrite H1. simpl. rewrite H2. simpl.
  by rewrite Hc1, Hc2.
Qed.

(** ** The claims *)


(** C3.  Outside dry-run mode, when the catalog lists at least one
    repository that the pattern accepts and the line read at the
    confirmation prompt is not "yes" up to letter case,
    [cleanup_repositories_by_pattern] returns the empty mapping; the
    history is the one the listing left (no tag list, no probe, no DELETE
    follows), and the last console line is the cancellation notice. *)
Theorem unconfirmed_cleanup_is_cancelled self pattern (st : State W)
    repositories regex confirm rest :
  dry_run self = false ->
  let listing :=
    list_repositories session_request self (wrote st [MsgFindingPattern pattern]) in
  snd listing = Ok repositories ->
  re_compile re_other (regex_source pattern) = Ok regex ->
  List.filter regex repositories <> [] ->
  stdin st = confirm :: rest ->
  Py.lower confirm <> "yes" ->
  let run :=
    cleanup_repositories_by_pattern session_request re_other self pattern st in
  snd run = Ok ∅
  /\ trace (fst run) = trace (fst listing)
  /\ deletes (trace (fst run)) = deletes (trace st)
  /\ last (stdout (fst run)) = Some MsgOperationCancelled.
Proof.
  intros Hdry listing Hl Hre Hm Hin Hno run. subst run.
  rewrite cleanup_repositories_by_pattern_run. cbv zeta.
  pose proof (list_repositories_run self (wrote st [MsgFindingPattern pattern]))
    as (_ & Ht & _ & Hin').
  cbv zeta in Ht, Hin'. simpl trace in Ht. simpl world in Ht. simpl stdin in Hin'.
  destruct (listing_counts (trace st) (catalog_request self)
              (snd (session_request (world st) (catalog_request self)))
              eq_refl) as [Hd _].
  rewrite <- Ht in Hd. clear Ht. fold listing in Hd, Hin' |- *.
  rewrite Hl. destruct repositories as [| r rs]; [done |].
  rewrite Hre. destruct (List.filter regex (r :: rs)) as [| m ms]; [done |].
  rewrite Hdry, Hin', Hin.
  destruct (String.eqb (Py.lower confirm) "yes") eqn:E.
  - by apply String.eqb_eq in E.
  - cbn [fst snd wrote confirmed trace stdout]. repeat split; try done.
    by rewrite last_snoc.
Qed.


(** C5 (amended).  [get_manifest_digest] sends the HEAD probes for the
    media types schema2, schema1 and OCI, in that order and each at most
    once, up to the first probe whose verdict is not [Next].  A usable
    answer (status outside 400-599) with a non-empty Docker-Content-Digest
    header ends the search with that digest; a transport failure, a 404,
    or an answer without a digest moves on to the next type; an error
    status other than 404 is raised to the caller.  With no verdict from
    the three probes the result is none.  In particular, when the first
    probe yields nothing and the second a digest, that digest is
    returned. *)
Theorem get_manifest_digest_spec self repository tag (st : State W) :
  let run := get_manifest_digest session_request self repository tag st in
  let probes := manifest_probes self repository tag in
  let all := exchange_all session_request (world st) probes in
  map method probes = [HEAD; HEAD; HEAD]
  /\ map accept probes = map Some manifest_types
  /\ snd run = verdict_result (first_verdict all)
  /\ trace (fst run) = trace st ++ until_verdict all
  /\ (forall p1 p2 p3 w1 o1 w2 o2 digest,
        probes = [p1; p2; p3] ->
        session_request (world st) p1 = (w1, o1) ->
        classify o1 = Next ->
        session_request w1 p2 = (w2, o2) ->
        classify o2 = Found digest ->
        snd run = Ok (Some digest)).
Proof.
  cbv zeta. split; [reflexivity |]. split; [reflexivity |].
  destruct (get_manifest_digest_run self repository tag st) as [Hr Ht].
  split; [done |]. split; [done |].
  intros. by eapply get_manifest_digest_fallback.
Qed.

(** C6.  Outside dry-run mode, [delete_manifest] sends one DELETE and
    always returns a boolean, never an exception: true exactly when the
    registry answers with status 202 or 204, false for every other status
    and for every failure of the transport. *)
Theorem delete_manifest_spec self repository digest (st : State W) :
  dry_run self = false ->
  let run := delete_manifest session_request self repository digest st in
  let req := delete_request self repository digest in
  let o := snd (session_request (world st) req) in
  snd run = Ok (delete_result o)
  /\ (delete_result o = true
      <-> exists r, o = Answer r
                    /\ (status_code r = 202%Z \/ status_code r = 204%Z))
  /\ trace (fst run) = trace st ++ [(req, o)].
Proof.
  intros Hdry. cbv zeta.
  destruct (delete_manifest_run self repository digest st Hdry) as (Hr & Ht & _).
  split; [done |]. split; [| done].
  unfold delete_result. destruct (snd (session_request _ _)) as [r | e].
  - split.
    + intros H. exists r. split; [done |]. lia.
    + intros (r' & [= <-] & H). lia.
  - split; [done |]. by intros (r' & [=] & _).
Qed.

(** C7 (amended).  [cleanup_repository] lists the tags first.  With an
    empty list it returns (0,0) at once.  Otherwise it runs the loop from
    the counters (0,0) over the tags in the listed order and returns its
    counters: a tag for which [get_manifest_digest] returns none adds one
    to the failed count and the loop goes on with the next tag; a tag with
    a digest is handed to [delete_manifest], which always returns a
    boolean, and adds one to the deleted count on true, to the failed count
    on false; an error raised by [get_manifest_digest] ends the run with
    that error.  A repository whose tag list comes back empty therefore
    yields (0,0) after the one GET, in dry-run mode or not. *)
Theorem cleanup_repository_spec self repository (st : State W) :
  let listing :=
    list_tags session_request self repository
      (wrote st [MsgCleaningRepository repository]) in
  let run := cleanup_repository session_request self repository st in
  (snd listing = Ok [] -> run = (fst listing, Ok (0, 0)%Z))
  /\ (forall tags,
        snd listing = Ok tags -> tags <> [] ->
        let looped :=
          cleanup_tags session_request self repository tags 0 0 (fst listing) in
        run = match snd looped with
              | Ok counts =>
                  (wrote (fst looped)
                     [MsgRepositorySummary repository (fst counts) (snd counts)],
                   Ok counts)
              | Raise e => (fst looped, Raise e)
              end)
  /\ (forall deleted_count failed_count (st' : State W),
        cleanup_tags session_request self repository [] deleted_count failed_count st'
        = (st', Ok (deleted_count, failed_count)))
  /\ (forall tag rest deleted_count failed_count (st' : State W),
        let resolved :=
          get_manifest_digest session_request self repository tag
            (wrote st' [MsgProcessingTag tag]) in
        let this :=
          cleanup_tags session_request self repository (tag :: rest)
            deleted_count failed_count st' in
        (snd resolved = Ok None ->
         this = cleanup_tags session_request self repository rest
                  deleted_count (failed_count + 1) (fst resolved))
        /\ (forall e, snd resolved = Raise e -> this = (fst resolved, Raise e))
        /\ (forall digest,
              snd resolved = Ok (Some digest) ->
              let removed :=
                delete_manifest session_request self repository digest
                  (fst resolved) in
              (snd removed = Ok true \/ snd removed = Ok false)
              /\ (snd removed = Ok true ->
                  this = cleanup_tags session_request self repository rest
                           (deleted_count + 1) failed_count (fst removed))
              /\ (snd removed = Ok false ->
                  this = cleanup_tags session_request self repository rest
                           deleted_count (failed_count + 1) (fst removed))))
  /\ (tags_result (snd (session_request (world st) (tags_request self repository)))
      = Ok [] ->
      snd run = Ok (0, 0)%Z
      /\ trace (fst run)
         = trace st ++ [(tags_request self repository,
                         snd (session_request (world st)
                                (tags_request self repository)))]).
Proof.
  cbv zeta. rewrite cleanup_repository_run. cbv zeta.
  split; [by intros -> |]. split.
  { intros tags -> Hne. by destruct tags. }
  split; [done |]. split.
  - intros tag rest d f st'. rewrite cleanup_tags_step. cbv zeta.
    pose proof (get_manifest_digest_counts self repository tag
                  (wrote st' [MsgProcessingTag tag])) as (_ & _ & Ht).
    cbv zeta in Ht. split; [by intros -> |]. split; [by intros e -> |].
    intros digest Hres. rewrite Hres, (Ht digest Hres).
    destruct (delete_manifest_total self repository digest
                (fst (get_manifest_digest session_request self repository tag
                        (wrote st' [MsgProcessingTag tag])))) as [b Hb].
    rewrite Hb. split; [destruct b; [by left | by right] |].
    split; by intros [= ->].
  - pose proof (list_tags_run self repository
                  (wrote st [MsgCleaningRepository repository])) as (Hr & Ht & _).
    cbv zeta in Hr, Ht. simpl world in Hr, Ht. simpl trace in Ht.
    intros Hempty. rewrite Hempty in Hr. rewrite Hr. done.
Qed.

(** C9.  When [cleanup_repository] returns a pair of counts, [list_tags]
    had returned a list of tags, the two counts are non-negative and they
    add up to the number of those tags; a single tag moves exactly one of
    the two counters, by one. *)
Theorem cleanup_repository_counts_sum self repository (st : State W) deleted failed :
  snd (cleanup_repository session_request self repository st) = Ok (deleted, failed) ->
  (exists tags,
     snd (list_tags session_request self repository
            (wrote st [MsgCleaningRepository repository])) = Ok tags
     /\ (deleted + failed = Z.of_nat (length tags))%Z
     /\ (0 <= deleted)%Z /\ (0 <= failed)%Z)
  /\ (forall tag d f (st' : State W) d' f',
        snd (cleanup_tags session_request self repository [tag] d f st')
        = Ok (d', f') ->
        (d' = d + 1 /\ f' = f)%Z \/ (d' = d /\ f' = f + 1)%Z).
Proof.
  intros H. split.
  - destruct (cleanup_repository_counts self repository st deleted failed H)
      as (tags & Hl & Hs & Hd & Hf).
    by exists tags.
  - intros tag d f st' d' f' Hrun.
    apply cleanup_tags_counts in Hrun. simpl in Hrun. lia.
Qed.



(** What the pattern routine accepts, for a pattern of wildcards, dots and
    ordinary characters: the names that match the translation in full, and
    those that do so once their final newline is taken away. *)
Lemma pattern_accepts pattern :
  glob_pattern pattern = true ->
  exists regex,
    re_compile re_other (regex_source pattern) = Ok regex
    /\ Re.compile (regex_pattern pattern) = Some (glob_items pattern)
    /\ forall name,
         regex name = fullmatch_or_chomped (glob_items pattern) true name.
Proof.
  intros Hg. destruct (compile_source pattern Hg) as [Hp Hs].
  exists (Re.matches (Re.Bol :: glob_items pattern ++ [Re.Eol])).
  unfold re_compile. rewrite Hs. split; [done |]. split; [done |].
  intros name. unfold Re.matches. cbn [Re.run andb]. apply run_eol.
Qed.

(** Away from names that end in a newline, acceptance is the full match of
    the translation. *)
Lemma pattern_accepts_fullmatch pattern name :
  glob_pattern pattern = true ->
  chomp name = None ->
  exists regex,
    re_compile re_other (regex_source pattern) = Ok regex
    /\ regex name = Re.fullmatch (glob_items pattern) name.
Proof.
  intros Hg Hn. destruct (pattern_accepts pattern Hg) as (regex & Hre & _ & Hacc).
  exists regex. split; [done |].
  rewrite Hacc. unfold fullmatch_or_chomped, Re.fullmatch. rewrite Hn.
  apply orb_false_r.
Qed.

(** C2 (the code at the failing input).  For the pattern "bdtemp" the
    routine accepts the name made of "bdtemp" and a final newline, which
    does not match the translation "bdtemp" in full: the [$] written
    after the translation also matches just before a final newline.  The
    anchoring examples of the claim hold: "bdtemp*" accepts "bdtemp" and
    "bdtemp-1" and rejects "xbdtemp1". *)
Theorem pattern_accepts_final_newline :
  (exists regex items,
     re_compile re_other (regex_source "bdtemp") = Ok regex
     /\ Re.compile (regex_pattern "bdtemp") = Some items
     /\ regex ("bdtemp" +:+ String Py.newline "") = true
     /\ Re.fullmatch items ("bdtemp" +:+ String Py.newline "") = false)
  /\ (exists regex,
        re_compile re_other (regex_source "bdtemp*") = Ok regex
        /\ regex "bdtemp" = true
        /\ regex "bdtemp-1" = true
        /\ regex "xbdtemp1" = false).
Proof.
  split.
  - eexists _, _. split; [reflexivity |]. split; [reflexivity |].
    split; vm_compute; reflexivity.
  - eexists. split; [reflexivity |]. repeat split; vm_compute; reflexivity.
Qed.

(** C10.  The translation rewrites [*] to [.*] and [?] to [.] and copies
    every other character as it is, the characters with a meaning in
    regular expressions included.  So the pattern "a.b" accepts "axb",
    which the shell pattern "a.b" does not match, and "bdtemp*" accepts
    "bdtemp/sub": [*] runs across [/]. *)
Theorem translation_keeps_metacharacters :
  (forall pattern, regex_pattern pattern = spec_translate pattern)
  /\ (exists regex,
        re_compile re_other (regex_source "a.b") = Ok regex
        /\ regex "axb" = true)
  /\ spec_glob_match "a.b" "axb" = false
  /\ (exists regex,
        re_compile re_other (regex_source "bdtemp*") = Ok regex
        /\ regex "bdtemp/sub" = true).
Proof.
  split; [apply regex_pattern_translate |]. split; [| split].
  - eexists. split; [reflexivity |]. vm_compute. reflexivity.
  - vm_compute. reflexivity.
  - eexists. split; [reflexivity |]. vm_compute. reflexivity.
Qed.

End Facts.

(** * The claims on concrete registries *)


(** C3 on a registry with one accepted repository, the answer "no" at the
    prompt. *)
Lemma unconfirmed_cleanup_is_cancelled_witness :
  dry_run (client false) = false
  /\ Py.lower "no" <> "yes"
  /\ snd (cleanup_repositories_by_pattern (static (simple_registry ["app"; "keep"]))
            no_re (client false) "a*" (start ["no"])) = Ok ∅
  /\ deletes (trace (fst (cleanup_repositories_by_pattern
                            (static (simple_registry ["app"; "keep"]))
                            no_re (client false) "a*" (start ["no"])))) = 0%nat.
Proof.
  split; [reflexivity |]. split; [discriminate |].
  destruct (unconfirmed_cleanup_is_cancelled
              (static (simple_registry ["app"; "keep"])) no_re
              (client false) "a*" (start ["no"])
              ["app"; "keep"]
              (Re.matches [Re.Bol; Re.Lit "a"; Re.AnyStar; Re.Eol])
              "no" [])
    as (Hres & _ & Hdel & _).
  - reflexivity.
  - vm_compute. reflexivity.
  - reflexivity.
  - vm_compute. discriminate.
  - reflexivity.
  - vm_compute. discriminate.
  - split; [exact Hres | exact Hdel].
Defined.



(** C5 as stated fails: only the second media type answers with a digest,
    the first is answered with status 500, and the result is that error,
    not the digest. *)
Lemma get_manifest_digest_aborts_before_second_type :
  map (fun req => classify (second_type_only (status 500) req))
    (manifest_probes (client false) "app" "latest")
  = [Abort (HTTPError (mkResponse 500 ∅ None)); Found "sha256:aa"; Next]
  /\ snd (get_manifest_digest (static (second_type_only (status 500)))
            (client false) "app" "latest" (start []))
     = Raise (HTTPError (mkResponse 500 ∅ None))
  /\ snd (get_manifest_digest (static (second_type_only (status 500)))
            (client false) "app" "latest" (start []))
     <> Ok (Some "sha256:aa").
Proof.
  split; [vm_compute; reflexivity |].
  split; [vm_compute; reflexivity | vm_compute; discriminate].
Qed.

(** C5 (amended) on the scenario of the specification: the first media
    type is answered 404, the second with a digest. *)
Lemma get_manifest_digest_spec_witness :
  classify (status 404) = Next
  /\ classify (with_digest "sha256:aa") = Found "sha256:aa"
  /\ snd (get_manifest_digest (static (second_type_only (status 404)))
            (client false) "app" "latest" (start []))
     = Ok (Some "sha256:aa").
Proof.
  split; [reflexivity |]. split; [reflexivity |].
  destruct (get_manifest_digest_spec (static (second_type_only (status 404)))
              (client false) "app" "latest" (start []))
    as (_ & _ & _ & _ & H).
  eapply H; reflexivity.
Defined.

(** C6 on a registry that accepts the deletion, and on one that answers
    500. *)
Lemma delete_manifest_spec_witness :
  dry_run (client false) = false
  /\ snd (delete_manifest (static (always 202)) (client false) "app" "sha256:aa"
            (start [])) = Ok true
  /\ snd (delete_manifest (static (always 500)) (client false) "app" "sha256:aa"
            (start [])) = Ok false.
Proof.
  split; [reflexivity |]. split.
  - destruct (delete_manifest_spec (static (always 202)) (client false)
                "app" "sha256:aa" (start []) eq_refl) as (H & _ & _).
    exact H.
  - destruct (delete_manifest_spec (static (always 500)) (client false)
                "app" "sha256:aa" (start []) eq_refl) as (H & _ & _).
    exact H.
Defined.

(** C7 as stated fails: digest resolution fails for the first of two tags
    (the probe is answered with status 500) and the run ends there with
    that error; the second tag is never probed and no counts come back. *)
Lemma cleanup_repository_aborts_on_probe_error :
  snd (list_tags (static broken_manifests) (client false) "app"
         (wrote (start []) [MsgCleaningRepository "app"])) = Ok ["v1"; "v2"]
  /\ snd (cleanup_repository (static broken_manifests) (client false) "app"
            (start []))
     = Raise (HTTPError (mkResponse 500 ∅ None))
  /\ map fst (trace (fst (cleanup_repository (static broken_manifests)
                            (client false) "app" (start []))))
     = [tags_request (client false) "app";
        mkRequest HEAD
          (registry_url (client false) +:+ "/v2" +:+ "/app/manifests/v1")
          (Some "application/vnd.docker.distribution.manifest.v2+json")].
Proof.
  split; [vm_compute; reflexivity |].
  split; vm_compute; reflexivity.
Qed.

(** C7 (amended) on a repository without tags, and on one with the single tag
    [latest] whose manifest resolves and is deleted. *)
Lemma cleanup_repository_spec_witness :
  tags_result (with_field "tags" []) = Ok []
  /\ snd (cleanup_repository (static no_tags) (client false) "app" (start []))
     = Ok (0, 0)%Z
  /\ snd (cleanup_repository (static (simple_registry ["app"])) (client false)
            "app" (start []))
     = Ok (1, 0)%Z.
Proof.
  split; [reflexivity |]. split.
  - destruct (cleanup_repository_spec (static no_tags) (client false) "app"
                (start [])) as (_ & _ & _ & _ & H).
    destruct (H eq_refl) as [Hres _]. exact Hres.
  - destruct (cleanup_repository_spec (static (simple_registry ["app"]))
                (client false) "app" (start []))
      as (_ & Hloop & Hnil & Hstep & _).
    rewrite (Hloop ["latest"]); [| vm_compute; reflexivity | discriminate].
    destruct (Hstep "latest" [] 0%Z 0%Z
                (fst (list_tags (static (simple_registry ["app"])) (client false)
                        "app" (wrote (start []) [MsgCleaningRepository "app"]))))
      as (_ & _ & Hsome).
    destruct (Hsome "sha256:aa") as (_ & Htrue & _); [vm_compute; reflexivity |].
    rewrite Htrue; [| vm_compute; reflexivity].
    rewrite Hnil. reflexivity.
Defined.

(** C9 on the same repository: one tag, counts (1,0). *)
Lemma cleanup_repository_counts_sum_witness :
  snd (cleanup_repository (static (simple_registry ["app"])) (client false)
         "app" (start [])) = Ok (1, 0)%Z
  /\ exists tags,
       snd (list_tags (static (simple_registry ["app"])) (client false) "app"
              (wrote (start []) [MsgCleaningRepository "app"])) = Ok tags
       /\ (1 + 0 = Z.of_nat (length tags))%Z.
Proof.
  assert (H : snd (cleanup_repository (static (simple_registry ["app"]))
                     (client false) "app" (start [])) = Ok (1, 0)%Z)
    by (vm_compute; reflexivity).
  split; [exact H |].
  destruct (cleanup_repository_counts_sum (static (simple_registry ["app"]))
              (client false) "app" (start []) 1%Z 0%Z H)
    as [(tags & Hl & Hs & _) _].
  exists tags. split; [exact Hl | exact Hs].
Defined.



(** C2, end to end: in a dry run with the pattern "bdtemp", the catalog
    entry "bdtemp" with a final newline is taken for a match and cleaned. *)
Lemma final_newline_repository_is_cleaned :
  snd (cleanup_repositories_by_pattern
         (static (simple_registry ["bdtemp" +:+ String Py.newline ""])) no_re
         (client true) "bdtemp" (start []))
  = Ok (record ∅ [("bdtemp" +:+ String Py.newline "", (1, 0)%Z)]).
Proof. vm_compute. reflexivity. Qed.

(** * Further properties of the client *)

Section Frames.

Context {W : Type}.
Variable session_request : W -> Request -> W * Outcome.
Variable re_other : string -> option (string -> bool).

Local Open Scope py_scope.

(** *** How the two properties compose *)

Lemma sends_ret {A} P (a : A) : sends (W:=W) P (ret a).
Proof. intros st. exists []. simpl. by rewrite app_nil_r. Qed.

Lemma sends_raise {A} P e : sends (W:=W) (A:=A) P (raise e).
Proof. intros st. exists []. simpl. by rewrite app_nil_r. Qed.

Lemma sends_lift {A} P (r : result A) : sends (W:=W) P (lift r).
Proof. intros st. exists []. simpl. by rewrite app_nil_r. Qed.

Lemma sends_print P m : sends (W:=W) P (print m).
Proof. intros st. exists []. simpl. by rewrite app_nil_r. Qed.

Lemma sends_input P m : sends (W:=W) P (input m).
Proof.
  intros st. exists []. unfold input. destruct (stdin st); simpl; by rewrite app_nil_r.
Qed.

Lemma sends_bind {A B} P (m : M W A) (k : A -> M W B) :
  sends P m -> (forall a, sends P (k a)) -> sends P (bind m k).
Proof.
  intros Hm Hk st. unfold bind. destruct (Hm st) as (xs & Ht & Hx).
  destruct (m st) as [st1 [a | e]]; simpl in *.
  - destruct (Hk a st1) as (ys & Ht' & Hy). exists (xs ++ ys).
    rewrite Ht', Ht, app_assoc. split; [done |]. by apply Forall_app.
  - by exists xs.
Qed.

Lemma sends_try_except {A} P (m : M W A) (h : exn -> M W A) :
  sends P m -> (forall e, sends P (h e)) -> sends P (try_except m h).
Proof.
  intros Hm Hh st. unfold try_except. destruct (Hm st) as (xs & Ht & Hx).
  destruct (m st) as [st1 [a | e]]; simpl in *.
  - by exists xs.
  - destruct (Hh e st1) as (ys & Ht' & Hy). exists (xs ++ ys).
    rewrite Ht', Ht, app_assoc. split; [done |]. by apply Forall_app.
Qed.

Lemma sends_weaken {A} (P Q : Request -> Prop) (m : M W A) :
  (forall req, P req -> Q req) -> sends P m -> sends Q m.
Proof.
  intros HPQ Hm st. destruct (Hm st) as (xs & Ht & Hx). exists xs.
  split; [done |]. eapply Forall_impl; [exact Hx |]. intros x. apply HPQ.
Qed.

Lemma sends_request P req : P req -> sends P (request session_request req).
Proof.
  intros HP st. unfold request.
  destruct (session_request (world st) req) as [w' o].
  exists [(req, o)]. split; [by destruct o |]. by constructor.
Qed.

Lemma keeps_ret {A} (a : A) : keeps_keyboard (W:=W) (ret a).
Proof. by intros st. Qed.

Lemma keeps_raise {A} e : keeps_keyboard (W:=W) (A:=A) (raise e).
Proof. by intros st. Qed.

Lemma keeps_lift {A} (r : result A) : keeps_keyboard (W:=W) (lift r).
Proof. by intros st. Qed.

Lemma keeps_print m : keeps_keyboard (W:=W) (print m).
Proof. by intros st. Qed.

Lemma keeps_bind {A B} (m : M W A) (k : A -> M W B) :
  keeps_keyboard m -> (forall a, keeps_keyboard (k a)) -> keeps_keyboard (bind m k).
Proof.
  intros Hm Hk st. unfold bind. specialize (Hm st).
  destruct (m st) as [st1 [a | e]]; simpl in *; [| done].
  by rewrite Hk.
Qed.

Lemma keeps_try_except {A} (m : M W A) (h : exn -> M W A) :
  keeps_keyboard m -> (forall e, keeps_keyboard (h e)) ->
  keeps_keyboard (try_except m h).
Proof.
  intros Hm Hh st. unfold try_except. specialize (Hm st).
  destruct (m st) as [st1 [a | e]]; simpl in *; [done |].
  by rewrite Hh.
Qed.

Lemma keeps_request req : keeps_keyboard (request session_request req).
Proof.
  intros st. unfold request.
  destruct (session_request (world st) req) as [w' o]. by destruct o.
Qed.

(** *** The operations *)

Lemma sends__make_request P self m path acc :
  P (mkRequest m (registry_url self +:+ "/v2" +:+ path) acc) ->
  sends P (_make_request session_request self m path acc).
Proof.
  intros HP. unfold _make_request. apply sends_try_except.
  - apply sends_bind; [by apply sends_request |]. intros r.
    apply sends_bind; [| intros; apply sends_ret].
    unfold raise_for_status. destruct (is_error_status r);
      [apply sends_raise | apply sends_ret].
  - intros e. destruct (is_RequestException e); [| apply sends_raise].
    apply sends_bind; [apply sends_print | intros; apply sends_raise].
Qed.

Lemma keeps__make_request self m path acc :
  keeps_keyboard (_make_request session_request self m path acc).
Proof.
  unfold _make_request. apply keeps_try_except.
  - apply keeps_bind; [apply keeps_request |]. intros r.
    apply keeps_bind; [| intros; apply keeps_ret].
    unfold raise_for_status. destruct (is_error_status r);
      [apply keeps_raise | apply keeps_ret].
  - intros e. destruct (is_RequestException e); [| apply keeps_raise].
    apply keeps_bind; [apply keeps_print | intros; apply keeps_raise].
Qed.

Ltac frame_known := fail.

Ltac frame :=
  repeat first
    [ frame_known
    | apply sends_ret | apply sends_raise | apply sends_lift
    | apply sends_print | apply sends_input
    | apply keeps_ret | apply keeps_raise | apply keeps_lift | apply keeps_print
    | match goal with
      | |- sends _ (bind _ _) => apply sends_bind; [| intros ?]
      | |- sends _ (try_except _ _) => apply sends_try_except; [| intros ?]
      | |- keeps_keyboard (bind _ _) => apply keeps_bind; [| intros ?]
      | |- keeps_keyboard (try_except _ _) => apply keeps_try_except; [| intros ?]
      | |- sends _ (match ?x with _ => _ end) => destruct x
      | |- keeps_keyboard (match ?x with _ => _ end) => destruct x
      end ].

Ltac frame_known ::=
  first [ apply keeps__make_request
        | apply sends__make_request ].

Lemma sends_list_repositories self :
  sends (fun req => req = catalog_request self)
    (list_repositories session_request self).
Proof. unfold list_repositories, json, get, len. frame. reflexivity. Qed.

Lemma keeps_list_repositories self :
  keeps_keyboard (list_repositories session_request self).
Proof. unfold list_repositories, json, get, len. frame. Qed.

Lemma sends_list_tags self repository :
  sends (fun req => req = tags_request self repository)
    (list_tags session_request self repository).
Proof. unfold list_tags, json, get. frame. reflexivity. Qed.

Lemma keeps_list_tags self repository :
  keeps_keyboard (list_tags session_request self repository).
Proof. unfold list_tags, json, get. frame. Qed.

Lemma sends_probe_each self repository tag types :
  sends (fun req => In req (probes_for self repository tag types))
    (probe_each session_request self repository tag types).
Proof.
  induction types as [| ty types IH]; simpl.
  - frame.
  - apply sends_bind.
    + unfold probe. frame. by left.
    + intros [digest |]; [frame |].
      eapply sends_weaken; [| exact IH]. intros req H. by right.
Qed.

Lemma keeps_probe_each self repository tag types :
  keeps_keyboard (probe_each session_request self repository tag types).
Proof.
  induction types as [| ty types IH]; simpl.
  - frame.
  - apply keeps_bind.
    + unfold probe. frame.
    + intros [digest |]; [frame | exact IH].
Qed.

Lemma sends_get_manifest_digest self repository tag :
  sends (fun req => In req (manifest_probes self repository tag))
    (get_manifest_digest session_request self repository tag).
Proof. apply (sends_probe_each self repository tag manifest_types). Qed.

Lemma keeps_get_manifest_digest self repository tag :
  keeps_keyboard (get_manifest_digest session_request self repository tag).
Proof. apply keeps_probe_each. Qed.

Lemma sends_delete_manifest self repository digest :
  sends (fun req => req = delete_request self repository digest)
    (delete_manifest session_request self repository digest).
Proof. unfold delete_manifest. frame. reflexivity. Qed.

Lemma keeps_delete_manifest self repository digest :
  keeps_keyboard (delete_manifest session_request self repository digest).
Proof. unfold delete_manifest. frame. Qed.

Lemma sends_cleanup_tags self repository tags :
  forall d f,
    sends (concerns self repository)
      (cleanup_tags session_request self repository tags d f).
Proof.
  induction tags as [| tag rest IH]; intros d f; simpl; [frame |].
  apply sends_bind; [frame |]. intros _.
  apply sends_bind.
  { eapply sends_weaken; [| apply sends_get_manifest_digest].
    intros req H. right. left. by exists tag. }
  intros [digest |]; [| apply IH].
  destruct (Py.truthy digest); [| apply IH].
  apply sends_bind.
  { eapply sends_weaken; [| apply sends_delete_manifest].
    intros req ->. right. right. by exists digest. }
  intros [|]; apply IH.
Qed.

Lemma keeps_cleanup_tags self repository tags :
  forall d f,
    keeps_keyboard (cleanup_tags session_request self repository tags d f).
Proof.
  induction tags as [| tag rest IH]; intros d f; simpl; [frame |].
  apply keeps_bind; [frame |]. intros _.
  apply keeps_bind; [apply keeps_get_manifest_digest |].
  intros [digest |]; [| apply IH].
  destruct (Py.truthy digest); [| apply IH].
  apply keeps_bind; [apply keeps_delete_manifest |].
  intros [|]; apply IH.
Qed.

Lemma sends_cleanup_repository self repository :
  sends (concerns self repository)
    (cleanup_repository session_request self repository).
Proof.
  unfold cleanup_repository.
  apply sends_bind; [frame |]. intros _.
  apply sends_bind.
  { eapply sends_weaken; [| apply sends_list_tags]. intros req ->. by left. }
  intros [| t ts]; [frame |].
  apply sends_bind; [apply sends_cleanup_tags |]. intros counts. frame.
Qed.

Lemma keeps_cleanup_repository self repository :
  keeps_keyboard (cleanup_repository session_request self repository).
Proof.
  unfold cleanup_repository.
  apply keeps_bind; [frame |]. intros _.
  apply keeps_bind; [apply keeps_list_tags |].
  intros [| t ts]; [frame |].
  apply keeps_bind; [apply keeps_cleanup_tags |]. intros counts. frame.
Qed.

Lemma sends_cleanup_all self repos :
  sends (fun req => exists repo, In repo repos /\ concerns self repo req)
    (cleanup_all session_request self repos).
Proof.
  induction repos as [| repo rest IH]; simpl; [frame |].
  apply sends_bind.
  { eapply sends_weaken; [| apply sends_cleanup_repository].
    intros req H. exists repo. split; [by left | done]. }
  intros counts. apply sends_bind; [| intros; frame].
  eapply sends_weaken; [| exact IH].
  intros req (r & Hin & Hc). exists r. split; [by right | done].
Qed.

Lemma keeps_cleanup_all self repos :
  keeps_keyboard (cleanup_all session_request self repos).
Proof.
  induction repos as [| repo rest IH]; simpl; [frame |].
  apply keeps_bind; [apply keeps_cleanup_repository |].
  intros counts. apply keeps_bind; [exact IH | intros; frame].
Qed.

(** *** Counting the deletions *)






(** ** Properties beyond the claims *)

(** X1.  [list_repositories] never raises.  It sends one GET for the
    catalog and returns the listed repositories; a failure of the
    transport, an answer with an error status (404 and 500 alike), a body
    that is no JSON object, and a missing or [null] field all give the
    empty list. *)
Theorem list_repositories_never_raises self (st : State W) :
  let run := list_repositories session_request self st in
  let req := catalog_request self in
  let o := snd (session_request (world st) req) in
  snd run = Ok (repositories_result o)
  /\ trace (fst run) = trace st ++ [(req, o)]
  /\ stdin (fst run) = stdin st
  /\ ((exists e, o = Failure e)
      \/ (exists r,
            o = Answer r
            /\ (is_error_status r = true
                \/ body r = None
                \/ body r = Some JsonOther
                \/ exists fields,
                     body r = Some (JsonObject fields)
                     /\ (fields !! "repositories" = None
                         \/ fields !! "repositories" = Some None))) ->
      snd run = Ok []).
Proof.
  cbv zeta.
  destruct (list_repositories_run session_request self st) as (Hr & Ht & _ & Hi).
  cbv zeta in Hr, Ht, Hi. repeat split; try done.
  rewrite Hr. unfold repositories_result, listed.
  intros [[e ->] | (r & -> & H)]; [done |].
  destruct (is_error_status r); [done |].
  destruct H as [H | [-> | [-> | (fields & -> & [-> | ->])]]]; done.
Qed.

(** X2.  [_make_request] makes exactly one exchange, with the URL
    [registry_url + "/v2" + path], and never retries.  It returns the
    response exactly when the registry answered with a status outside
    400-599; an answer with an error status is raised as the HTTP error
    that carries that response, and a failure of the transport is raised
    unchanged. *)
Theorem _make_request_single_exchange self m path acc (st : State W) :
  let run := _make_request session_request self m path acc st in
  let req := mkRequest m (registry_url self +:+ "/v2" +:+ path) acc in
  let o := snd (session_request (world st) req) in
  trace (fst run) = trace st ++ [(req, o)]
  /\ (forall r, snd run = Ok r <-> o = Answer r /\ is_error_status r = false)
  /\ (forall e,
        snd run = Raise e <->
        (exists r, o = Answer r /\ is_error_status r = true /\ e = HTTPError r)
        \/ (exists t, o = Failure t /\ e = Transport t)).
Proof.
  cbv zeta. rewrite _make_request_run. cbv zeta.
  destruct (session_request _ _) as [w' o]. cbn [fst snd after trace].
  split; [done |]. destruct o as [r | t].
  - destruct (is_error_status r) eqn:E; split.
    + intros r'. split; [done |]. intros [[= <-] H]. congruence.
    + intros e. split.
      * intros [= <-]. left. by exists r.
      * intros [(r' & [= <-] & _ & ->) | (t & [=] & _)]. done.
    + intros r'. split; [by intros [= <-] | by intros [[= <-] _]].
    + intros e. split; [done |].
      intros [(r' & [= <-] & H & _) | (t & [=] & _)]. congruence.
  - split.
    + intros r. split; [done | by intros [[=] _]].
    + intros e. split.
      * intros [= <-]. right. by exists t.
      * intros [(r' & [=] & _) | (t' & [= <-] & ->)]. done.
Qed.


(** X4.  A run of [cleanup_repository] asks the registry about its own
    repository only: every request it sends is the tag list of that
    repository, a manifest probe of one of its tags, or the deletion of
    one of its manifests.  It reads nothing from the keyboard. *)
Theorem cleanup_repository_stays_in_repository self repository (st : State W) :
  let run := cleanup_repository session_request self repository st in
  (exists xs,
     trace (fst run) = trace st ++ xs
     /\ Forall (fun x => concerns self repository (fst x)) xs)
  /\ stdin (fst run) = stdin st.
Proof.
  split; [apply sends_cleanup_repository | apply keeps_cleanup_repository].
Qed.

Lemma cleanup_matching_frame self matching (st : State W) :
  let run := cleanup_matching session_request self matching st in
  (exists xs,
     trace (fst run) = trace st ++ xs
     /\ Forall (fun x => exists repo, In repo matching /\ concerns self repo (fst x)) xs)
  /\ stdin (fst run) = stdin st.
Proof.
  cbv zeta. rewrite cleanup_matching_run.
  pose proof (sends_cleanup_all self matching st) as (xs & Ht & Hx).
  pose proof (keeps_cleanup_all self matching st) as Hk.
  destruct (cleanup_all _ _ _ _) as [st' [cs | e]]; cbn [fst snd wrote trace stdin] in *.
  - split; [by exists xs | done].
  - split; [by exists xs | done].
Qed.

(** X5.  A run of [cleanup_repositories_by_pattern] starts with the GET
    of the catalog, and every request after it is about a repository that
    the catalog listed and the compiled pattern accepts: no tag list, no
    probe and no deletion ever goes to a repository outside the match. *)
Theorem pattern_cleanup_stays_in_match self pattern (st : State W) :
  let run :=
    cleanup_repositories_by_pattern session_request re_other self pattern st in
  let o := snd (session_request (world st) (catalog_request self)) in
  exists xs,
    trace (fst run) = trace st ++ (catalog_request self, o) :: xs
    /\ Forall (fun x =>
                 exists repo regex,
                   In repo (repositories_result o)
                   /\ re_compile re_other (regex_source pattern) = Ok regex
                   /\ regex repo = true
                   /\ concerns self repo (fst x)) xs.
Proof.
  cbv zeta. rewrite cleanup_repositories_by_pattern_run. cbv zeta.
  pose proof (list_repositories_run session_request self
                (wrote st [MsgFindingPattern pattern])) as (Hr & Ht & _).
  cbv zeta in Hr, Ht. simpl trace in Ht. simpl world in Hr, Ht.
  set (o := snd (session_request (world st) (catalog_request self))) in *.
  destruct (list_repositories _ _ _) as [st1 [repositories | e]];
    cbn [fst snd] in *; [| done].
  injection Hr as Hr.
  assert (Hnone : exists xs : list (Request * Outcome),
            trace st1 = trace st ++ (catalog_request self, o) :: xs
            /\ Forall (fun x =>
                 exists repo regex,
                   In repo (repositories_result o)
                   /\ re_compile re_other (regex_source pattern) = Ok regex
                   /\ regex repo = true
                   /\ concerns self repo (fst x)) xs)
    by (exists []; by rewrite Ht).
  destruct repositories as [| r rs]; [exact Hnone |].
  destruct (re_compile _ _) as [regex | e] eqn:Ere; [| exact Hnone].
  destruct (List.filter regex (r :: rs)) as [| m ms] eqn:Ef; [exact Hnone |].
  assert (Hgo : forall st_go : State W,
            trace st_go = trace st1 ->
            exists xs,
              trace (fst (cleanup_matching session_request self (m :: ms) st_go))
              = trace st ++ (catalog_request self, o) :: xs
              /\ Forall (fun x =>
                   exists repo regex0,
                     In repo (repositories_result o)
                     /\ Ok regex = Ok regex0
                     /\ regex0 repo = true
                     /\ concerns self repo (fst x)) xs).
  { intros st_go Hst.
    destruct (cleanup_matching_frame self (m :: ms) st_go) as [(xs & Hx & Hall) _].
    exists xs. rewrite Hx, Hst, Ht, <- app_assoc. split; [done |].
    eapply Forall_impl; [exact Hall |]. intros x (repo & Hin & Hc).
    rewrite <- Ef in Hin. apply filter_In in Hin as [Hin Hacc].
    exists repo, regex. rewrite <- Hr. done. }
  destruct (dry_run self); [by apply Hgo |].
  destruct (stdin st1) as [| confirm rest]; [exact Hnone |].
  destruct (String.eqb (Py.lower confirm) "yes"); [by apply Hgo | exact Hnone].
Qed.

(** X6.  In dry-run mode [cleanup_repositories_by_pattern] reads nothing
    from the keyboard; in any mode it reads at most one line. *)
Theorem pattern_cleanup_reads_at_most_one_line self pattern (st : State W) :
  let run :=
    cleanup_repositories_by_pattern session_request re_other self pattern st in
  (dry_run self = true -> stdin (fst run) = stdin st)
  /\ (stdin (fst run) = stdin st
      \/ exists confirm, stdin st = confirm :: stdin (fst run)).
Proof.
  cbv zeta. rewrite cleanup_repositories_by_pattern_run. cbv zeta.
  pose proof (keeps_list_repositories self (wrote st [MsgFindingPattern pattern]))
    as Hk.
  simpl stdin in Hk.
  destruct (list_repositories _ _ _) as [st1 [repositories | e]];
    cbn [fst snd] in *; [| split; [done | by left]].
  destruct repositories as [| r rs]; [split; [done | by left] |].
  destruct (re_compile _ _) as [regex | e]; [| split; [done | by left]].
  destruct (List.filter regex (r :: rs)) as [| m ms]; [split; [done | by left] |].
  destruct (dry_run self).
  - destruct (cleanup_matching_frame self (m :: ms) (announced st1 (m :: ms)))
      as [_ Hs].
    cbv zeta in Hs. simpl stdin in Hs. rewrite Hs, Hk. split; [done | by left].
  - split; [done |]. destruct (stdin st1) as [| confirm rest] eqn:Hin.
    + cbn [fst wrote announced stdin]. left. congruence.
    + right. exists confirm. rewrite <- Hk.
      destruct (String.eqb (Py.lower confirm) "yes").
      * destruct (cleanup_matching_frame self (m :: ms)
                    (confirmed st1 (m :: ms) rest)) as [_ Hs].
        cbv zeta in Hs. simpl stdin in Hs. by rewrite Hs.
      * done.
Qed.

(** X7.  Outside dry-run mode, when a repository matches and the keyboard
    is at its end, [cleanup_repositories_by_pattern] ends with [EOFError]
    at the prompt; nothing was requested after the catalog. *)
Theorem pattern_cleanup_at_end_of_input self pattern (st : State W)
    repositories regex :
  dry_run self = false ->
  let listing :=
    list_repositories session_request self (wrote st [MsgFindingPattern pattern]) in
  snd listing = Ok repositories ->
  re_compile re_other (regex_source pattern) = Ok regex ->
  List.filter regex repositories <> [] ->
  stdin st = [] ->
  let run :=
    cleanup_repositories_by_pattern session_request re_other self pattern st in
  snd run = Raise EOFError
  /\ trace (fst run) = trace (fst listing)
  /\ last (stdout (fst run)) = Some MsgConfirmPrompt.
Proof.
  intros Hdry listing Hl Hre Hm Hin run. subst run.
  rewrite cleanup_repositories_by_pattern_run. cbv zeta.
  pose proof (keeps_list_repositories self (wrote st [MsgFindingPattern pattern]))
    as Hk.
  simpl stdin in Hk. fold listing in Hk |- *.
  rewrite Hl. destruct repositories as [| r rs]; [done |].
  rewrite Hre. destruct (List.filter regex (r :: rs)) as [| m ms]; [done |].
  rewrite Hdry, Hk, Hin. cbn [fst snd wrote announced trace stdout].
  repeat split.
  change [MsgDeleteWarning (length (m :: ms)); MsgConfirmPrompt]
    with ([MsgDeleteWarning (length (m :: ms))] ++ [MsgConfirmPrompt]).
  by rewrite app_assoc, last_snoc.
Qed.

(** X8.  When the catalog yields no repository (it is empty, or its
    listing failed in any way), [cleanup_repositories_by_pattern] returns
    the empty mapping after that one GET, whatever the pattern and the
    mode: the pattern is not compiled and nothing is read from the
    keyboard.  When the catalog lists a repository and [re.compile] rejects
    the pattern, the run ends with that error after the one GET. *)
Theorem pattern_cleanup_before_matching self pattern (st : State W) :
  let run :=
    cleanup_repositories_by_pattern session_request re_other self pattern st in
  let o := snd (session_request (world st) (catalog_request self)) in
  trace (fst (list_repositories session_request self
                (wrote st [MsgFindingPattern pattern])))
  = trace st ++ [(catalog_request self, o)]
  /\ (repositories_result o = [] ->
      trace (fst run) = trace st ++ [(catalog_request self, o)]
      /\ stdin (fst run) = stdin st
      /\ snd run = Ok ∅)
  /\ (repositories_result o <> [] ->
      forall e,
        re_compile re_other (regex_source pattern) = Raise e ->
        trace (fst run) = trace st ++ [(catalog_request self, o)]
        /\ stdin (fst run) = stdin st
        /\ snd run = Raise e).
Proof.
  cbv zeta. rewrite cleanup_repositories_by_pattern_run. cbv zeta.
  pose proof (list_repositories_run session_request self
                (wrote st [MsgFindingPattern pattern])) as (Hr & Ht & _ & Hi).
  cbv zeta in Hr, Ht, Hi. simpl trace in Ht. simpl world in Hr, Ht.
  simpl stdin in Hi.
  destruct (list_repositories _ _ _) as [st1 [repositories | e]];
    cbn [fst snd] in *; [| done].
  injection Hr as Hr. rewrite <- Hr. split; [done |].
  destruct repositories as [| r rs]; [by split |].
  split; [done |]. by intros _ e ->.
Qed.

End Frames.

Section Patterns.

Variable re_other : string -> option (string -> bool).

Local Arguments chomp : simpl never.

Lemma chomp_no_newline name : no_newline name = true -> chomp name = None.
Proof.
  induction name as [| c [| c' rest] IH]; [done | |].
  - simpl. rewrite chomp_one. by destruct (Ascii.eqb c Py.newline).
  - intros H. cbn [no_newline] in H. apply andb_prop in H as [_ H].
    rewrite chomp_cons, IH; done.
Qed.

Lemma chomp_some name s :
  chomp name = Some s <-> name = s +:+ String Py.newline "".
Proof.
  revert s. induction name as [| c [| c' rest] IH]; intros s.
  - split; [done |]. by destruct s.
  - rewrite chomp_one. destruct (Ascii.eqb c Py.newline) eqn:E.
    + apply Ascii.eqb_eq in E as ->. split.
      * by intros [= <-].
      * destruct s as [| a [| a' s']]; [done | done | done].
    + split; [done |]. destruct s as [| a [| a' s']]; try done.
      intros [= ->]. by rewrite Ascii.eqb_refl in E.
  - rewrite chomp_cons. destruct (chomp (String c' rest)) as [t |] eqn:Et.
    + split.
      * intros [= <-]. rewrite append_cons. f_equal. by apply IH.
      * destruct s as [| a s']; [done |]. rewrite append_cons.
        intros [= -> H]. apply IH in H. by injection H as ->.
    + split; [done |]. destruct s as [| a s']; [done |]. rewrite append_cons.
      intros [= -> H]. by apply IH in H.
Qed.

Lemma literal_is_glob pattern :
  literal_pattern pattern = true -> glob_pattern pattern = true.
Proof.
  induction pattern as [| c rest IH]; [done |]. simpl.
  intros H. repeat (apply andb_prop in H as [H ?]). rewrite H. by apply IH.
Qed.

Lemma wildcard_is_glob pattern :
  wildcard_pattern pattern = true -> glob_pattern pattern = true.
Proof.
  induction pattern as [| c rest IH]; [done |]. simpl.
  intros H. repeat (apply andb_prop in H as [H ?]). rewrite H. by apply IH.
Qed.

Lemma run_literal pattern :
  literal_pattern pattern = true ->
  forall start name,
    Re.run true (glob_items pattern) start name = String.eqb name pattern.
Proof.
  induction pattern as [| c rest IH]; intros H start name.
  - by destruct name.
  - simpl in H. repeat (apply andb_prop in H as [H ?]).
    cbn [glob_items].
    destruct (Ascii.eqb c "*"); [done |].
    destruct (Ascii.eqb c "?"); [done |].
    destruct (Ascii.eqb c "."); [done |].
    destruct name as [| a name']; [done |]. cbn [Re.run String.eqb].
    rewrite IH by done. by destruct (Ascii.eqb a c).
Qed.

Lemma spec_glob_star rest name :
  spec_glob_match (String "*" rest) name
  = spec_glob_match rest name
    || match name with
       | String _ name' => spec_glob_match (String "*" rest) name'
       | EmptyString => false
       end.
Proof. by destruct name. Qed.

Lemma run_wildcard pattern :
  wildcard_pattern pattern = true ->
  forall start name,
    no_newline name = true ->
    Re.run true (glob_items pattern) start name = spec_glob_match pattern name.
Proof.
  induction pattern as [| c rest IH]; intros H start name Hn.
  - by destruct name.
  - simpl in H. repeat (apply andb_prop in H as [H ?]).
    cbn [glob_items].
    destruct (Ascii.eqb c "*") eqn:Es.
    + apply Ascii.eqb_eq in Es as ->.
      revert start. induction name as [| a name' IHn]; intros start.
      * rewrite run_any_star, spec_glob_star, IH by done. done.
      * pose proof Hn as Hn0.
        cbn [no_newline] in Hn. apply andb_prop in Hn as [Ha Hn'].
        rewrite run_any_star, spec_glob_star, IH by done.
        by rewrite Ha, IHn.
    + destruct (Ascii.eqb c "?") eqn:Eq.
      * destruct name as [| a name']; [by cbn; rewrite Es |].
        cbn [no_newline] in Hn. apply andb_prop in Hn as [Ha Hn'].
        cbn [Re.run spec_glob_match]. rewrite Es, Eq, Ha, IH by done. done.
      * destruct (Ascii.eqb c "."); [done |].
        destruct name as [| a name']; [by cbn; rewrite Es |].
        cbn [no_newline] in Hn. apply andb_prop in Hn as [Ha Hn'].
        cbn [Re.run spec_glob_match]. rewrite Es, Eq, IH by done. done.
Qed.

(** X9.  A pattern without wildcard, dot or other character with a
    meaning in [re] selects the repository of exactly that name (and the
    same name followed by one newline, which [$] lets through). *)
Theorem literal_pattern_selects_its_name pattern :
  literal_pattern pattern = true ->
  exists regex,
    re_compile re_other (regex_source pattern) = Ok regex
    /\ forall name,
         regex name = true
         <-> name = pattern \/ name = pattern +:+ String Py.newline "".
Proof.
  intros H.
  destruct (pattern_accepts re_other pattern (literal_is_glob pattern H))
    as (regex & Hre & _ & Hacc).
  exists regex. split; [done |]. intros name. rewrite Hacc.
  unfold fullmatch_or_chomped. rewrite run_literal by done.
  destruct (String.eqb name pattern) eqn:E.
  - apply String.eqb_eq in E. split; [by left | done].
  - apply String.eqb_neq in E. simpl.
    destruct (chomp name) as [s |] eqn:Ec.
    + rewrite run_literal by done. apply chomp_some in Ec. split.
      * intros Hs. apply String.eqb_eq in Hs. right. congruence.
      * intros [-> | ->]; [done |]. apply String.eqb_eq.
        apply chomp_some in Ec.
        assert (Hs : chomp (pattern +:+ String Py.newline "") = Some pattern)
          by (by apply chomp_some).
        congruence.
    + split; [done |]. intros [-> | ->]; [done |].
      assert (Hs : chomp (pattern +:+ String Py.newline "") = Some pattern)
        by (by apply chomp_some).
      congruence.
Qed.

(** X10.  For a pattern made of [*], [?] and characters without a meaning
    in [re] (no dot), and a name without newline, the routine accepts the
    name exactly when the shell pattern matches the whole name: [*] for
    any run of characters, [?] for any one character, every other
    character for itself. *)
Theorem wildcard_pattern_is_shell_match pattern name :
  wildcard_pattern pattern = true ->
  no_newline name = true ->
  exists regex,
    re_compile re_other (regex_source pattern) = Ok regex
    /\ regex name = spec_glob_match pattern name.
Proof.
  intros H Hn.
  destruct (pattern_accepts re_other pattern (wildcard_is_glob pattern H))
    as (regex & Hre & _ & Hacc).
  exists regex. split; [done |]. rewrite Hacc.
  unfold fullmatch_or_chomped. rewrite chomp_no_newline by done.
  rewrite orb_false_r. by apply run_wildcard.
Qed.

Lemma lower_char_letter c (l : ascii) :
  In l ["y"; "e"; "s"]%char ->
  Py.lower_char c = l ->
  c = l \/ c = ascii_of_nat (nat_of_ascii l - 32).
Proof.
  intros Hl.
  destruct c as [[] [] [] [] [] [] [] []];
    destruct Hl as [<- | [<- | [<- | []]]]; vm_compute;
    first [ discriminate | (intros _; left; reflexivity)
          | (intros _; right; reflexivity) ].
Qed.

(** X11.  The confirmation test [confirm.lower() == 'yes'] holds for the
    eight spellings of "yes" and for no other line: a blank before or
    after it, or a bare "y", does not confirm. *)
Theorem confirmation_spellings confirm :
  Py.lower confirm = "yes" <-> In confirm affirmative.
Proof.
  split.
  - destruct confirm as [| c1 [| c2 [| c3 [| c4 rest]]]]; try done.
    cbn [Py.lower]. intros [= H1 H2 H3].
    apply (lower_char_letter c1 "y") in H1; [| by left].
    apply (lower_char_letter c2 "e") in H2; [| by right; left].
    apply (lower_char_letter c3 "s") in H3; [| by right; right; left].
    destruct H1 as [-> | ->], H2 as [-> | ->], H3 as [-> | ->];
      vm_compute; tauto.
  - intros H. repeat (destruct H as [<- | H]; [reflexivity |]). done.
Qed.

End Patterns.

Section ProgramFacts.

Context {W : Type}.
Variable transport : Session -> W -> Request -> W * Outcome.
Variable re_other : string -> option (string -> bool).

Local Open Scope cli_scope.

(** *** The constructor *)

Lemma rstrip_copies c s : exists n, s = rstrip c s +:+ copies n c.
Proof.
  induction s as [| a rest [n IH]]; [by exists 0%nat |].
  cbn [rstrip]. destruct (rstrip c rest) as [| b kept] eqn:E.
  - destruct (Ascii.eqb a c) eqn:Ea.
    + apply Ascii.eqb_eq in Ea as ->. exists (S n). simpl. by rewrite IH at 1.
    + exists n. rewrite append_cons, append_nil. by rewrite IH at 1.
  - exists n. rewrite append_cons. by rewrite IH at 1.
Qed.

Lemma rstrip_end c s t : rstrip c s <> t +:+ String c "".
Proof.
  revert t. induction s as [| a rest IH]; intros t.
  - by destruct t.
  - cbn [rstrip]. destruct (rstrip c rest) as [| b kept] eqn:E.
    + destruct (Ascii.eqb a c) eqn:Ea; [by destruct t |].
      destruct t as [| x [| y t']]; try done.
      rewrite append_nil. intros [= ->]. by rewrite Ascii.eqb_refl in Ea.
    + destruct t as [| x t']; [by rewrite append_nil |].
      rewrite append_cons. intros [= -> H]. by apply (IH t').
Qed.

Lemma __init___run registry_url username password verify_ssl dry_run (c : Console W) :
  exists lines,
    __init__ registry_url username password verify_ssl dry_run c
    = (mkConsole (registry c) (keyboard c) (screen c ++ lines) (history c),
       Ok (mkClient (mkRegistryCleanup (rstrip "/" registry_url) dry_run)
             verify_ssl
             (mkSession
                (if given username && given password
                 then Some (default "" username, default "" password)
                 else None)
                (if negb verify_ssl then false else true)))).
Proof.
  unfold __init__, cbind, tell, cret.
  destruct (given username && given password), verify_ssl; cbn;
    eexists; rewrite <- ?app_assoc; reflexivity.
Qed.

(** *** Operations of the client within the program *)

Lemma run_core_run {A} (m : M W A) (c : Console W) :
  run_core m c
  = (mkConsole (world (fst (m (load c)))) (stdin (fst (m (load c))))
       (screen c ++ map Said (stdout (fst (m (load c)))))
       (trace (fst (m (load c)))),
     snd (m (load c))).
Proof. unfold run_core. by destruct (m (load c)). Qed.

Lemma show_each_step self repo rest (c : Console W) :
  show_each transport self (repo :: rest) c
  = let listing := list_tags (transport (session self)) (core self) repo (load c) in
    let c1 := mkConsole (world (fst listing)) (stdin (fst listing))
                (screen c ++ map Said (stdout (fst listing)))
                (trace (fst listing)) in
    match snd listing with
    | Ok tags =>
        show_each transport self rest
          (mkConsole (registry c1) (keyboard c1)
             (screen c1 ++ [Told (MsgRepositoryTagCount repo (length tags))])
             (history c1))
    | Raise e => (c1, Raise e)
    end.
Proof.
  cbn [show_each]. unfold cbind at 1. rewrite run_core_run.
  by destruct (snd (list_tags _ _ _ _)).
Qed.

Lemma show_each_frame self repos :
  forall c : Console W,
    let run := show_each transport self repos c in
    exists xs,
      history (fst run) = history c ++ xs
      /\ Forall is_get xs
      /\ (length xs <= length repos)%nat
      /\ keyboard (fst run) = keyboard c.
Proof.
  induction repos as [| repo rest IH]; intros c; cbv zeta.
  - exists []. cbn. by rewrite app_nil_r.
  - rewrite show_each_step. cbv zeta.
    pose proof (list_tags_run (transport (session self)) (core self) repo (load c))
      as (_ & Ht & _ & Hi).
    cbv zeta in Ht, Hi. cbn [load trace stdin world] in Ht, Hi.
    destruct (list_tags _ _ _ _) as [st' [tags | e]];
      cbn [fst snd registry keyboard screen history] in *.
    + match goal with
      | |- context [show_each transport self rest ?c1] =>
          destruct (IH c1) as (xs & Hx & Hg & Hl & Hk)
      end.
      cbn [history keyboard] in Hx, Hk.
      eexists (_ :: xs). rewrite Hx, Hk, Ht, <- app_assoc. split; [reflexivity |].
      split; [by constructor |]. split; [simpl; lia | done].
    + eexists [_]. rewrite Ht. split; [reflexivity |].
      split; [by repeat constructor |]. split; [simpl; lia | done].
Qed.

Lemma only_reads_ret {A} (a : A) : only_reads (W:=W) 0 (cret a).
Proof. intros c. exists []. cbn. by rewrite app_nil_r. Qed.

Lemma only_reads_tell m : only_reads (W:=W) 0 (tell m).
Proof. intros c. exists []. cbn. by rewrite app_nil_r. Qed.

Lemma only_reads_bind {A B} n1 n2 (m : Cli W A) (k : A -> Cli W B) :
  only_reads n1 m -> (forall a, only_reads n2 (k a)) ->
  only_reads (n1 + n2) (cbind m k).
Proof.
  intros Hm Hk c. unfold cbind. destruct (Hm c) as (xs & Ht & Hg & Hl & Hi).
  destruct (m c) as [c1 [a | e]]; cbn [fst snd] in *.
  - destruct (Hk a c1) as (ys & Ht' & Hg' & Hl' & Hi'). exists (xs ++ ys).
    rewrite Ht', Ht, Hi', Hi, app_assoc, length_app.
    split; [done |]. split; [by apply Forall_app |]. split; [lia | done].
  - exists xs. split; [done |]. split; [done |]. split; [lia | done].
Qed.

Lemma only_reads_try {A} n1 n2 (m : Cli W A) (h : exn -> Cli W A) :
  only_reads n1 m -> (forall e, only_reads n2 (h e)) ->
  only_reads (n1 + n2) (ctry m h).
Proof.
  intros Hm Hh c. unfold ctry. destruct (Hm c) as (xs & Ht & Hg & Hl & Hi).
  destruct (m c) as [c1 [a | e]]; cbn [fst snd] in *.
  - exists xs. split; [done |]. split; [done |]. split; [lia | done].
  - destruct (Hh e c1) as (ys & Ht' & Hg' & Hl' & Hi'). exists (xs ++ ys).
    rewrite Ht', Ht, Hi', Hi, app_assoc, length_app.
    split; [done |]. split; [by apply Forall_app |]. split; [lia | done].
Qed.

Lemma only_reads_more {A} n n' (m : Cli W A) :
  (n <= n')%nat -> only_reads n m -> only_reads n' m.
Proof.
  intros Hn Hm c. destruct (Hm c) as (xs & Ht & Hg & Hl & Hi). exists xs.
  split; [done |]. split; [done |]. split; [lia | done].
Qed.

Lemma only_reads__make_request self path :
  only_reads 1
    (run_core (_make_request (transport (session self)) (core self) GET path None)).
Proof.
  intros c. rewrite run_core_run, _make_request_run. cbv zeta.
  destruct (transport _ _ _) as [w' o]. eexists [_].
  cbn [fst snd history keyboard after trace stdin load].
  split; [reflexivity |]. split; [by repeat constructor | by split].
Qed.

Lemma only_reads_list_repositories self :
  only_reads 1
    (run_core (list_repositories (transport (session self)) (core self))).
Proof.
  intros c. rewrite run_core_run.
  pose proof (list_repositories_run (transport (session self)) (core self) (load c))
    as (_ & Ht & _ & Hi).
  cbv zeta in Ht, Hi. cbn [fst snd history keyboard load trace stdin world] in *.
  eexists [_]. rewrite Ht, Hi. split; [reflexivity |].
  split; [by repeat constructor | by split].
Qed.

Lemma only_reads_show_each self repos :
  only_reads (length repos) (show_each transport self repos).
Proof. intros c. apply show_each_frame. Qed.

Lemma only_reads_show_registry_info self :
  only_reads 12 (show_registry_info transport self).
Proof.
  unfold show_registry_info.
  apply (only_reads_bind 0 12); [apply only_reads_tell |]. intros _.
  apply (only_reads_bind 0 12); [apply only_reads_tell |]. intros _.
  apply (only_reads_bind 1 11).
  { apply (only_reads_try 1 0).
    - apply (only_reads_bind 1 0); [apply only_reads__make_request |].
      intros _. apply (only_reads_bind 0 0); [apply only_reads_tell |].
      intros _. apply only_reads_ret.
    - intros e. apply (only_reads_bind 0 0); [apply only_reads_tell |].
      intros _. apply only_reads_ret. }
  intros [|]; [| apply (only_reads_more 0); [lia | apply only_reads_ret]].
  apply (only_reads_bind 1 10); [apply only_reads_list_repositories |].
  intros [| r rs]; [apply (only_reads_more 0); [lia | apply only_reads_ret] |].
  apply (only_reads_bind 0 10); [apply only_reads_tell |]. intros _.
  apply (only_reads_bind 10 0).
  - eapply only_reads_more; [| apply only_reads_show_each].
    rewrite length_take. lia.
  - intros _. destruct (10 <? length (r :: rs))%nat;
      [apply only_reads_tell | apply only_reads_ret].
Qed.

(** X13.  [show_registry_info] only reads: every request it sends is a
    GET, and there are at most twelve of them (the root of the API, the
    catalog, and the tag lists of the first ten repositories); nothing is
    read from the keyboard.  When the root does not answer with a usable
    status, that request is the only one and the function returns. *)
Theorem show_registry_info_only_reads self (c : Console W) :
  let run := show_registry_info transport self c in
  let root := mkRequest GET (registry_url (core self) +:+ "/v2" +:+ "/") None in
  let o := snd (transport (session self) (registry c) root) in
  (exists xs,
     history (fst run) = history c ++ xs
     /\ Forall is_get xs
     /\ (length xs <= 12)%nat
     /\ keyboard (fst run) = keyboard c)
  /\ (match o with
      | Answer r => is_error_status r = true
      | Failure _ => True
      end ->
      history (fst run) = history c ++ [(root, o)] /\ snd run = Ok tt).
Proof.
  cbv zeta. split; [apply only_reads_show_registry_info |].
  unfold show_registry_info, cbind, ctry, tell, cret.
  rewrite run_core_run, _make_request_run.
  cbn [load registry keyboard screen history world stdin trace].
  destruct (transport (session self) (registry c) _) as [w' o].
  cbn [fst snd after]. destruct o as [r | t].
  - intros ->. done.
  - done.
Qed.

(** X12.  [__init__] always builds a client and asks nothing of the
    registry or the keyboard.  The URL it keeps is the given one without
    the slashes at its end, so it never ends in a slash; the dry-run flag
    is kept as given; the session verifies TLS exactly when [verify_ssl]
    is set; and the session carries credentials exactly when both a
    non-empty user name and a non-empty password were given. *)
Theorem init_builds_client url_arg username password verify_arg dry (c : Console W) :
  let run := __init__ url_arg username password verify_arg dry c in
  exists client,
    snd run = Ok client
    /\ history (fst run) = history c
    /\ keyboard (fst run) = keyboard c
    /\ registry (fst run) = registry c
    /\ dry_run (core client) = dry
    /\ verify (session client) = verify_arg
    /\ (exists n, url_arg = registry_url (core client) +:+ copies n "/")
    /\ (forall t, registry_url (core client) <> t +:+ "/")
    /\ (forall u p,
          auth (session client) = Some (u, p)
          <-> username = Some u /\ password = Some p /\ u <> "" /\ p <> "").
Proof.
  cbv zeta.
  destruct (__init___run url_arg username password verify_arg dry c)
    as (lines & ->).
  eexists. split; [reflexivity |]. cbn.
  do 4 (split; [done |]).
  split; [by destruct verify_arg |].
  split; [apply rstrip_copies |].
  split; [apply rstrip_end |].
  intros u p. split.
  - destruct username as [[| a u'] |], password as [[| b p'] |]; cbn; try done.
    by intros [= <- <-].
  - intros (-> & -> & Hnu & Hnp).
    destruct u as [| a u'], p as [| b p']; done.
Qed.

Lemma main_builds args (c : Console W) :
  exists lines,
    __init__ (arg_registry args) (arg_username args) (arg_password args)
      (arg_verify_ssl args) (arg_dry_run args) c
    = (mkConsole (registry c) (keyboard c) (screen c ++ lines) (history c),
       Ok (built args)).
Proof. apply __init___run. Qed.

(** [main] once the command line has passed the two checks. *)
Lemma main_run args (c : Console W) :
  usage_error args = false ->
  exists lines,
    let c1 := mkConsole (registry c) (keyboard c) (screen c ++ lines) (history c) in
    main transport re_other args c
    = match operation transport re_other (built args) args c1 with
      | (c2, Ok _) => (c2, 0%Z)
      | (c2, Raise e) => (fst (tell (MsgOperationFailed e) c2), 1%Z)
      end.
Proof.
  unfold usage_error, main. intros H. apply orb_false_elim in H as [H1 H2].
  rewrite H1, H2. destruct (main_builds args c) as (lines & ->). by exists lines.
Qed.


(** *** The whole program *)

Lemma deletes_gets (t xs : list (Request * Outcome)) :
  Forall is_get xs -> deletes (t ++ xs) = deletes t.
Proof.
  intros H. rewrite deletes_app.
  assert (Hz : deletes xs = 0%nat); [| lia].
  induction H as [| x xs Hx _ IH]; [done |].
  unfold deletes in *. simpl. unfold is_delete at 1.
  unfold is_get in Hx. by rewrite Hx.
Qed.

Lemma pattern_cleanup_dry_run_deletes session_request self pattern (st : State W) :
  dry_run self = true ->
  deletes (trace (fst (cleanup_repositories_by_pattern session_request re_other
                         self pattern st)))
  = deletes (trace st).
Proof.
  intros Hdry. rewrite cleanup_repositories_by_pattern_run. cbv zeta.
  pose proof (list_repositories_run session_request self
                (wrote st [MsgFindingPattern pattern])) as (_ & Ht & _).
  cbv zeta in Ht. simpl trace in Ht. simpl world in Ht.
  destruct (listing_counts (trace st) (catalog_request self)
              (snd (session_request (world st) (catalog_request self)))
              eq_refl) as [Hd _].
  rewrite <- Ht in Hd. clear Ht.
  destruct (list_repositories _ _ _) as [st1 [repositories | e]];
    cbn [fst snd] in *; [| done].
  destruct repositories as [| r rs]; [done |].
  destruct (re_compile _ _) as [regex | e]; [| done].
  destruct (List.filter regex (r :: rs)) as [| m ms]; [done |].
  rewrite Hdry, cleanup_matching_run.
  pose proof (cleanup_all_dry_run session_request self (m :: ms) Hdry
                (announced st1 (m :: ms))) as [Hd2 _].
  cbv zeta in Hd2. cbn [announced wrote trace] in Hd2.
  destruct (cleanup_all _ _ _ _) as [st2 [cs | e]]; cbn [fst snd wrote trace] in *;
    congruence.
Qed.

Lemma operation_dry_run args (c : Console W) :
  arg_dry_run args = true ->
  deletes (history (fst (operation transport re_other (built args) args c)))
  = deletes (history c).
Proof.
  intros Hdry. unfold operation. rewrite Hdry. cbn [negb andb].
  unfold cbind at 1.
  match goal with
  | |- context [(if arg_info args then ?a else ?b) c] =>
      assert (H : deletes (history (fst ((if arg_info args then a else b) c)))
                  = deletes (history c));
      [| destruct ((if arg_info args then a else b) c) as [c' [u | e]]; exact H]
  end.
  destruct (arg_info args).
  - destruct (only_reads_show_registry_info (built args) c) as (xs & -> & Hg & _).
    by apply deletes_gets.
  - destruct (given (arg_pattern args)).
    + unfold cbind. rewrite run_core_run.
      pose proof (pattern_cleanup_dry_run_deletes
                    (transport (session (built args))) (core (built args))
                    (default "" (arg_pattern args)) (load c) Hdry) as H.
      destruct (cleanup_repositories_by_pattern _ _ _ _ _) as [st' [u | e]];
        exact H.
    + destruct (given (arg_repository args)); [| done].
      unfold cbind. rewrite run_core_run.
      pose proof (cleanup_repository_dry_run
                    (transport (session (built args))) (core (built args))
                    (default "" (arg_repository args)) (load c) Hdry) as [H _].
      destruct (cleanup_repository _ _ _ _) as [st' [u | e]]; exact H.
Qed.

(** X15.  A run of [main] with [--dry-run] sends no DELETE, whatever else
    the command line asks for and however the run ends. *)
Theorem main_dry_run_sends_no_delete args (c : Console W) :
  arg_dry_run args = true ->
  deletes (history (fst (main transport re_other args c))) = deletes (history c).
Proof.
  intros Hdry. destruct (usage_error args) eqn:Hu.
  - unfold usage_error in Hu. unfold main.
    destruct (negb (arg_info args) && negb (given (arg_pattern args))
              && negb (given (arg_repository args))); [done |].
    simpl in Hu. by rewrite Hu.
  - destruct (main_run args c Hu) as (lines & ->). cbv zeta.
    pose proof (operation_dry_run args
                  (mkConsole (registry c) (keyboard c) (screen c ++ lines)
                     (history c)) Hdry) as H.
    destruct (operation _ _ _ _ _) as [c2 [u | e]]; exact H.
Qed.



End ProgramFacts.

(** * The further properties on concrete registries *)

(** X1 on a catalog answered with status 500. *)
Lemma list_repositories_never_raises_witness :
  is_error_status (mkResponse 500 ∅ None) = true
  /\ snd (list_repositories (static (always 500)) (client false) (start []))
     = Ok [].
Proof.
  split; [reflexivity |].
  destruct (list_repositories_never_raises (static (always 500)) (client false)
              (start [])) as (_ & _ & _ & H).
  apply H. right. exists (mkResponse 500 ∅ None).
  split; [reflexivity |]. left. reflexivity.
Defined.

(** X2 on a registry that answers 200, and on one that answers 404. *)
Lemma _make_request_single_exchange_witness :
  snd (_make_request (static (always 200)) (client false) GET "/" None (start []))
  = Ok (mkResponse 200 ∅ None)
  /\ snd (_make_request (static (always 404)) (client false) GET "/" None (start []))
     = Raise (HTTPError (mkResponse 404 ∅ None)).
Proof.
  split.
  - destruct (_make_request_single_exchange (static (always 200)) (client false)
                GET "/" None (start [])) as (_ & H & _).
    apply H. split; reflexivity.
  - destruct (_make_request_single_exchange (static (always 404)) (client false)
                GET "/" None (start [])) as (_ & _ & H).
    apply H. left. exists (mkResponse 404 ∅ None). repeat split.
Defined.


(** X6 on a dry run over one repository, with a line waiting at the
    keyboard. *)
Lemma pattern_cleanup_reads_at_most_one_line_witness :
  dry_run (client true) = true
  /\ stdin (fst (cleanup_repositories_by_pattern
                   (static (simple_registry ["app"])) no_re (client true)
                   "app" (start ["yes"]))) = ["yes"].
Proof.
  split; [reflexivity |].
  destruct (pattern_cleanup_reads_at_most_one_line
              (static (simple_registry ["app"])) no_re (client true) "app"
              (start ["yes"])) as [H _].
  apply H. reflexivity.
Defined.

(** X7 on one matching repository and an empty keyboard. *)
Lemma pattern_cleanup_at_end_of_input_witness :
  dry_run (client false) = false
  /\ snd (cleanup_repositories_by_pattern (static (simple_registry ["app"])) no_re
            (client false) "app" (start [])) = Raise EOFError.
Proof.
  split; [reflexivity |].
  destruct (pattern_cleanup_at_end_of_input
              (static (simple_registry ["app"])) no_re (client false) "app"
              (start []) ["app"]
              (Re.matches (Re.Bol :: glob_items "app" ++ [Re.Eol])))
    as (H & _).
  - reflexivity.
  - vm_compute. reflexivity.
  - reflexivity.
  - vm_compute. discriminate.
  - reflexivity.
  - exact H.
Defined.

(** X8 on a catalog answered with status 500 and a pattern that [re]
    would reject. *)
Lemma pattern_cleanup_before_matching_witness :
  repositories_result (status 500) = []
  /\ snd (cleanup_repositories_by_pattern (static (always 500)) no_re
            (client false) "(" (start [])) = Ok ∅.
Proof.
  split; [reflexivity |].
  destruct (pattern_cleanup_before_matching (static (always 500)) no_re
              (client false) "(" (start [])) as (_ & H & _).
  destruct (H eq_refl) as (_ & _ & Hres). exact Hres.
Defined.

(** X9 on the pattern "keep". *)
Lemma literal_pattern_selects_its_name_witness :
  literal_pattern "keep" = true
  /\ exists regex,
       re_compile no_re (regex_source "keep") = Ok regex
       /\ (regex "keep" = true <-> "keep" = "keep"
                                   \/ "keep" = "keep" +:+ String Py.newline "").
Proof.
  split; [reflexivity |].
  destruct (literal_pattern_selects_its_name no_re "keep" eq_refl)
    as (regex & Hre & H).
  exists regex. split; [exact Hre | apply H].
Defined.

(** X10 on the pattern "bdtemp*" and the name "bdtemp-1". *)
Lemma wildcard_pattern_is_shell_match_witness :
  wildcard_pattern "bdtemp*" = true
  /\ no_newline "bdtemp-1" = true
  /\ exists regex,
       re_compile no_re (regex_source "bdtemp*") = Ok regex
       /\ regex "bdtemp-1" = spec_glob_match "bdtemp*" "bdtemp-1".
Proof.
  split; [reflexivity |]. split; [reflexivity |].
  apply (wildcard_pattern_is_shell_match no_re "bdtemp*" "bdtemp-1");
    reflexivity.
Defined.

(** X11 on the line "YES". *)
Lemma confirmation_spellings_witness :
  In "YES" affirmative /\ Py.lower "YES" = "yes".
Proof.
  assert (H : In "YES" affirmative) by (vm_compute; tauto).
  split; [exact H |]. by apply (confirmation_spellings "YES").
Defined.

(** X12 on a URL with two slashes at its end and a user name without a
    password. *)
Lemma init_builds_client_witness :
  exists client,
    snd (__init__ "https://registry.cluster:5000//" (Some "admin") None false true
           (console [])) = Ok client
    /\ registry_url (core client) = "https://registry.cluster:5000"
    /\ auth (session client) = None.
Proof.
  destruct (init_builds_client "https://registry.cluster:5000//" (Some "admin")
              None false true (console []))
    as (client & Hres & _).
  exists client. split; [exact Hres |].
  vm_compute in Hres. injection Hres as <-. split; reflexivity.
Defined.

(** X13 on a registry whose root answers 500. *)
Lemma show_registry_info_only_reads_witness :
  is_error_status (mkResponse 500 ∅ None) = true
  /\ snd (show_registry_info (any_session (always 500)) (built (command None None false true))
            (console [])) = Ok tt.
Proof.
  split; [reflexivity |].
  destruct (show_registry_info_only_reads (any_session (always 500))
              (built (command None None false true)) (console [])) as [_ H].
  apply H. reflexivity.
Defined.


(** X15 on a dry run over a pattern. *)
Lemma main_dry_run_sends_no_delete_witness :
  arg_dry_run (command (Some "bdtemp*") None true false) = true
  /\ deletes (history (fst (main (any_session (simple_registry ["bdtemp-a"; "keep"]))
                              no_re (command (Some "bdtemp*") None true false)
                              (console [])))) = 0%nat.
Proof.
  split; [reflexivity |].
  apply (main_dry_run_sends_no_delete
           (any_session (simple_registry ["bdtemp-a"; "keep"])) no_re
           (command (Some "bdtemp*") None true false) (console []) eq_refl).
Defined.


